(** * HVAC dashboard: the scenario engine of [app.py]

    A shallow embedding of [load_data] (flag coercion), [compute_scenarios]
    and the percentage guards of the "Cenarios" tab.

    Conventions of the embedding.
    - A pandas [Timestamp] is an integer number of seconds, a
      [datetime.date] an integer number of days; [pd.Timedelta(hours=1)] is
      3600 seconds.
    - A float column holds exact rationals ([Q]): rounding is abstracted
      away, and sums are compared with [==] ([Qeq]).  In the scenario
      engine [NaN] only arises as the mean of an empty series and is
      [None] there.
    - A [DataFrame] is a column store with the default [RangeIndex]
      [0 .. nrows-1] that [pd.read_csv] gives; a column that is absent is
      [None] and reading it raises [KeyError].  Columns the scenario engine
      never reads (powers, temperature, [year_month]) are left out.
    - DataFrames are mutable objects: they live in a heap and are handled
      through references, [DataFrame.copy] allocates. *)

From Stdlib Require Import String.
From Stdlib Require Import List ZArith QArith Lia Lqa Bool Sorted Arith.
From Stdlib Require Import Permutation.
Import ListNotations.
Local Open Scope Z_scope.

(* ------------------------------------------------------------------ *)
(** * Time *)

Definition Timedelta_hours (n : Z) : Z := n * 3600.

(** [Series.dt.date]: the calendar day of an instant.  Instants count
    seconds of wall-clock time; timestamps that carry a UTC offset are
    outside the model. *)
Definition dt_date (t : Z) : Z := t / 86400.

(* ------------------------------------------------------------------ *)
(** * Vectorised operations on columns and boolean masks *)

Module Series.

Definition sum (c : list Q) : Q := fold_right Qplus 0%Q c.

(** [Series.mean()]: [NaN] ([None]) on an empty series. *)
Definition mean (c : list Q) : option Q :=
  match c with
  | [] => None
  | _ :: _ => Some (sum c / inject_Z (Z.of_nat (length c)))%Q
  end.

(** [Series.max()] of a datetime series: [NaT] ([None]) when empty. *)
Definition max (c : list Z) : option Z :=
  match c with
  | [] => None
  | x :: t => Some (fold_left Z.max t x)
  end.

Definition any (m : list bool) : bool := existsb (fun b => b) m.

(** [a & b] *)
Fixpoint mask_and (a b : list bool) : list bool :=
  match a, b with
  | x :: a', y :: b' => (x && y) :: mask_and a' b'
  | _, _ => []
  end.

(** [c == v], [c > v], [c <= v] against a scalar *)
Definition eq_scalar (c : list Z) (v : Z) : list bool := map (fun x => x =? v) c.
Definition gt_scalar (c : list Z) (v : Z) : list bool := map (fun x => v <? x) c.
Definition le_scalar (c : list Z) (v : Z) : list bool := map (fun x => x <=? v) c.

(** [c[m]]: boolean indexing *)
Fixpoint select {A : Type} (m : list bool) (c : list A) : list A :=
  match m, c with
  | b :: m', x :: c' => if b then x :: select m' c' else select m' c'
  | _, _ => []
  end.

(** [c[m] = v]: assignment through a boolean mask *)
Fixpoint loc_assign (m : list bool) (c : list Q) (v : Q) : list Q :=
  match m, c with
  | b :: m', x :: c' => (if b then v else x) :: loc_assign m' c' v
  | _, _ => c
  end.

End Series.

(* ------------------------------------------------------------------ *)
(** * groupby *)

(** Group keys come out sorted and without repetition. *)
Fixpoint insert_key (k : Z) (l : list Z) : list Z :=
  match l with
  | [] => [k]
  | x :: t =>
      if k <? x then k :: l
      else if k =? x then l
      else x :: insert_key k t
  end.

Definition unique_sorted (keys : list Z) : list Z :=
  fold_right insert_key [] keys.

(** Index labels (row positions, counted from [start]) whose key is [k]. *)
Fixpoint positions_from (start : nat) (k : Z) (keys : list Z) : list nat :=
  match keys with
  | [] => []
  | x :: t =>
      if x =? k then start :: positions_from (S start) k t
      else positions_from (S start) k t
  end.

(** [df.groupby(col).groups]: key -> index labels of the group. *)
Definition groupby_groups (keys : list Z) : list (Z * list nat) :=
  map (fun k => (k, positions_from 0 k keys)) (unique_sorted keys).

(** [df.index.isin(idx)] on a [RangeIndex] of length [n]. *)
Definition index_isin (n : nat) (idx : list nat) : list bool :=
  map (fun i => existsb (Nat.eqb i) idx) (seq 0 n).

(** One row of [groupby("date").agg(sum, sum).reset_index()] with the
    [economia_kWh] column added afterwards. *)
Module Daily.
Record row : Type := mk
  { date : Z;
    energy_base_kWh : Q;
    energy_scenario_kWh : Q;   (* energy_s1_kWh / energy_s2_kWh *)
    economia_kWh : Q }.
End Daily.

Definition groupby_agg_sum (keys : list Z) (base scen : list Q)
  : list (Z * Q * Q) :=
  map (fun k =>
         let m := Series.eq_scalar keys k in
         (k, Series.sum (Series.select m base),
             Series.sum (Series.select m scen)))
      (unique_sorted keys).

Definition add_economia (r : Z * Q * Q) : Daily.row :=
  let '(d, b, s) := r in
  {| Daily.date := d;
     Daily.energy_base_kWh := b;
     Daily.energy_scenario_kWh := s;
     Daily.economia_kWh := (b - s)%Q |}.

(* ------------------------------------------------------------------ *)
(** * DataFrames and the heap *)

Record DataFrame : Type := mkDataFrame
  { nrows : nat;
    timestamp : option (list Z);
    date : option (list Z);
    energy_5min_real_kWh : option (list Q);
    on_off : option (list Z);
    is_business_hours : option (list Z);
    is_weekend : option (list Z);
    energy_s1_kWh : option (list Q);
    energy_s2_kWh : option (list Q) }.

Definition set_energy_s1_kWh (d : DataFrame) (c : list Q) : DataFrame :=
  {| nrows := nrows d; timestamp := timestamp d; date := date d;
     energy_5min_real_kWh := energy_5min_real_kWh d; on_off := on_off d;
     is_business_hours := is_business_hours d; is_weekend := is_weekend d;
     energy_s1_kWh := Some c; energy_s2_kWh := energy_s2_kWh d |}.

Definition set_energy_s2_kWh (d : DataFrame) (c : list Q) : DataFrame :=
  {| nrows := nrows d; timestamp := timestamp d; date := date d;
     energy_5min_real_kWh := energy_5min_real_kWh d; on_off := on_off d;
     is_business_hours := is_business_hours d; is_weekend := is_weekend d;
     energy_s1_kWh := energy_s1_kWh d; energy_s2_kWh := Some c |}.

Definition ref := nat.
Definition heap := list DataFrame.

Inductive exn : Type :=
| KeyError (column : string)
| ValueError
| InvalidRef.

Inductive outcome (A : Type) : Type :=
| Ok (a : A)
| Raise (e : exn).
Arguments Ok {A} a.
Arguments Raise {A} e.

(** Computations over the heap that may raise; the heap survives a raise. *)
Definition M (A : Type) : Type := heap -> outcome A * heap.

Definition ret {A} (a : A) : M A := fun h => (Ok a, h).
Definition raise {A} (e : exn) : M A := fun h => (Raise e, h).
Definition bind {A B} (m : M A) (k : A -> M B) : M B :=
  fun h => match m h with
           | (Ok a, h') => k a h'
           | (Raise e, h') => (Raise e, h')
           end.

Notation "x <- m ;; k" := (bind m (fun x => k))
  (at level 61, m at next level, right associativity).
Notation "m ;;; k" := (bind m (fun _ => k))
  (at level 61, right associativity).

Fixpoint for_each {A} (l : list A) (body : A -> M unit) : M unit :=
  match l with
  | [] => ret tt
  | x :: t => body x ;;; for_each t body
  end.

Fixpoint heap_set (h : heap) (r : ref) (d : DataFrame) : heap :=
  match h, r with
  | [], _ => []
  | _ :: t, O => d :: t
  | x :: t, S r' => x :: heap_set t r' d
  end.

Definition df_read (r : ref) : M DataFrame :=
  fun h => match nth_error h r with
           | Some d => (Ok d, h)
           | None => (Raise InvalidRef, h)
           end.

Definition df_write (r : ref) (d : DataFrame) : M unit :=
  fun h => match nth_error h r with
           | Some _ => (Ok tt, heap_set h r d)
           | None => (Raise InvalidRef, h)
           end.

(** [df.copy()]: a new object with the same contents. *)
Definition df_copy (r : ref) : M ref :=
  fun h => match nth_error h r with
           | Some d => (Ok (length h), h ++ [d])
           | None => (Raise InvalidRef, h)
           end.

(** [df[name]] *)
Definition getitem {A} (r : ref) (col : DataFrame -> option (list A))
           (name : string) : M (list A) :=
  d <- df_read r ;;
  match col d with
  | Some c => ret c
  | None => raise (KeyError name)
  end.

(** [df[name] = c] *)
Definition setitem {A} (r : ref) (set : DataFrame -> list A -> DataFrame)
           (c : list A) : M unit :=
  d <- df_read r ;; df_write r (set d c).

(** [df.loc[mask, name] = v] on a float column that exists.  (On an absent
    column pandas would add one; every call below follows the creation of
    the column, so that case is left as [KeyError].) *)
Definition loc_setitem (r : ref) (col : DataFrame -> option (list Q))
           (name : string) (set : DataFrame -> list Q -> DataFrame)
           (mask : list bool) (v : Q) : M unit :=
  c <- getitem r col name ;;
  setitem r set (Series.loc_assign mask c v).

(** [len(df.index)] *)
Definition df_len (r : ref) : M nat :=
  d <- df_read r ;; ret (nrows d).

(* ------------------------------------------------------------------ *)
(** * compute_scenarios *)

Local Open Scope string_scope.

(** Lines 79-94: the body of the per-day loop of scenario 1. *)
Definition early_shutoff_day (s1 : ref) (group : Z * list nat) : M unit :=
  let '(current_date, idx) := group in
  n <- df_len s1 ;;
  let day_mask := index_isin n idx in
  on <- getitem s1 on_off "on_off" ;;
  let mask_on := Series.mask_and day_mask (Series.eq_scalar on 1) in
  if negb (Series.any mask_on) then ret tt (* continue *)
  else
    ts <- getitem s1 timestamp "timestamp" ;;
    match Series.max (Series.select mask_on ts) with
    | None => ret tt (* NaT compares false with everything: empty mask *)
    | Some last_time =>
        let cutoff := last_time - Timedelta_hours 1 in
        let mask_early_off :=
          Series.mask_and
            (Series.mask_and mask_on (Series.gt_scalar ts cutoff))
            (Series.le_scalar ts last_time) in
        loc_setitem s1 energy_s1_kWh "energy_s1_kWh" set_energy_s1_kWh
                    mask_early_off 0%Q
    end.

(** Lines 75-94: the scenario-1 frame [s1]. *)
Definition cenario1 (base : ref) : M ref :=
  s1 <- df_copy base ;;
  e <- getitem s1 energy_5min_real_kWh "energy_5min_real_kWh" ;;
  setitem s1 set_energy_s1_kWh e ;;;
  dates <- getitem s1 date "date" ;;
  for_each (groupby_groups dates) (early_shutoff_day s1) ;;;
  ret s1.

(** Lines 111-115: the scenario-2 frame [s2]. *)
Definition cenario2 (base : ref) : M ref :=
  s2 <- df_copy base ;;
  e <- getitem s2 energy_5min_real_kWh "energy_5min_real_kWh" ;;
  setitem s2 set_energy_s2_kWh e ;;;
  bh <- getitem s2 is_business_hours "is_business_hours" ;;
  let mask_off_hours_all := Series.eq_scalar bh 0 in
  loc_setitem s2 energy_s2_kWh "energy_s2_kWh" set_energy_s2_kWh
              mask_off_hours_all 0%Q ;;;
  ret s2.

(** Lines 99-107 and 120-128: the daily aggregate of a scenario frame. *)
Definition daily_agg (s : ref) (scen : DataFrame -> option (list Q))
           (name : string) : M (list Daily.row) :=
  dates <- getitem s date "date" ;;
  b <- getitem s energy_5min_real_kWh "energy_5min_real_kWh" ;;
  c <- getitem s scen name ;;
  ret (map add_economia (groupby_agg_sum dates b c)).

(** The dictionary [compute_scenarios] returns. *)
Record ScenarioStats : Type := mkStats
  { total_base_kWh : Q;
    s1_total_kWh : Q;
    s1_economia_kWh : Q;
    s1_economia_media_dia : option Q;
    s1_daily : list Daily.row;
    s2_total_kWh : Q;
    s2_economia_kWh : Q;
    s2_economia_media_dia : option Q;
    s2_daily : list Daily.row }.

Definition compute_scenarios (base0 : ref) : M ScenarioStats :=
  base <- df_copy base0 ;;
  e <- getitem base energy_5min_real_kWh "energy_5min_real_kWh" ;;
  let total_base_kWh := Series.sum e in
  (* -------- Cenario 1 -------- *)
  s1 <- cenario1 base ;;
  e1 <- getitem s1 energy_s1_kWh "energy_s1_kWh" ;;
  let total_s1_kWh := Series.sum e1 in
  let economia1_kWh := (total_base_kWh - total_s1_kWh)%Q in
  daily_s1 <- daily_agg s1 energy_s1_kWh "energy_s1_kWh" ;;
  let economia1_media_dia := Series.mean (map Daily.economia_kWh daily_s1) in
  (* -------- Cenario 2 -------- *)
  s2 <- cenario2 base ;;
  e2 <- getitem s2 energy_s2_kWh "energy_s2_kWh" ;;
  let total_s2_kWh := Series.sum e2 in
  let economia2_kWh := (total_base_kWh - total_s2_kWh)%Q in
  daily_s2 <- daily_agg s2 energy_s2_kWh "energy_s2_kWh" ;;
  let economia2_media_dia := Series.mean (map Daily.economia_kWh daily_s2) in
  ret {| total_base_kWh := total_base_kWh;
         s1_total_kWh := total_s1_kWh;
         s1_economia_kWh := economia1_kWh;
         s1_economia_media_dia := economia1_media_dia;
         s1_daily := daily_s1;
         s2_total_kWh := total_s2_kWh;
         s2_economia_kWh := economia2_kWh;
         s2_economia_media_dia := economia2_media_dia;
         s2_daily := daily_s2 |}.

Local Close Scope string_scope.

(* ------------------------------------------------------------------ *)
(** * The "Cenarios" tab: percentage reduction (lines 390 and 421) *)

(** [a / b] is undefined for a zero divisor. *)
Definition truediv (a b : Q) : option Q :=
  if Qeq_bool b 0 then None else Some (a / b)%Q.

Definition pct (econ total_base : Q) : option Q :=
  if Qlt_le_dec 0 total_base then
    match truediv econ total_base with
    | Some x => Some (x * 100)%Q
    | None => None
    end
  else Some 0%Q.

Definition s1_pct (scenario_stats : ScenarioStats) : option Q :=
  pct (s1_economia_kWh scenario_stats) (total_base_kWh scenario_stats).

Definition s2_pct (scenario_stats : ScenarioStats) : option Q :=
  pct (s2_economia_kWh scenario_stats) (total_base_kWh scenario_stats).

(* ------------------------------------------------------------------ *)
(** * load_data *)

(** A flag column as [pd.read_csv] types it: [bool], [int64] or [float64]
    ([None] is a NaN or infinite cell).  Columns of dtype [object] are not
    modelled. *)
Inductive RawColumn : Type :=
| BoolColumn (c : list bool)
| IntColumn (c : list Z)
| FloatColumn (c : list (option Q)).

(** The parsed CSV.  [raw_timestamp] and [raw_date] hold the instants that
    [pd.to_datetime] reads from the cells. *)
Record RawFrame : Type := mkRawFrame
  { raw_nrows : nat;
    raw_timestamp : option (list Z);
    raw_date : option (list Z);
    raw_energy_5min_real_kWh : option (list Q);
    raw_on_off : option (list Z);
    raw_is_business_hours : option RawColumn;
    raw_is_weekend : option RawColumn }.

Fixpoint sequence {A} (l : list (option A)) : option (list A) :=
  match l with
  | [] => Some []
  | None :: _ => None
  | Some x :: t =>
      match sequence t with
      | Some t' => Some (x :: t')
      | None => None
      end
  end.

(** A float cast to [int]: truncation towards zero (within the range of
    [int64]; what the cast gives beyond it is not modelled). *)
Definition trunc (q : Q) : Z := Z.quot (Qnum q) (Zpos (Qden q)).

(** [Series.astype(int)] *)
Definition astype_int (c : RawColumn) : outcome (list Z) :=
  match c with
  | BoolColumn l => Ok (map (fun b : bool => if b then 1 else 0) l)
  | IntColumn l => Ok l
  | FloatColumn l =>
      match sequence l with
      | Some l' => Ok (map trunc l')
      | None => Raise ValueError
      end
  end.

(** [if name in base.columns: base[name] = base[name].astype(int)] *)
Definition coerce_flag (c : option RawColumn) : outcome (option (list Z)) :=
  match c with
  | None => Ok None
  | Some col =>
      match astype_int col with
      | Ok l => Ok (Some l)
      | Raise e => Raise e
      end
  end.

(** Lines 30-54, from the parsed CSV on: a failure of [pd.read_csv] or of
    [pd.to_datetime] has no branch here. *)
Definition load_data (raw : RawFrame) : outcome DataFrame :=
  match raw_timestamp raw with
  | None => Raise (KeyError "timestamp"%string)
  | Some ts =>
      let dates :=
        match raw_date raw with
        | Some d => map dt_date d
        | None => map dt_date ts
        end in
      match coerce_flag (raw_is_business_hours raw) with
      | Raise e => Raise e
      | Ok bh =>
          match coerce_flag (raw_is_weekend raw) with
          | Raise e => Raise e
          | Ok we =>
              Ok {| nrows := raw_nrows raw;
                    timestamp := Some ts;
                    date := Some dates;
                    energy_5min_real_kWh := raw_energy_5min_real_kWh raw;
                    on_off := raw_on_off raw;
                    is_business_hours := bh;
                    is_weekend := we;
                    energy_s1_kWh := None;
                    energy_s2_kWh := None |}
          end
      end
  end.

(* ------------------------------------------------------------------ *)
(** * Readings: the rows of a well-formed frame *)

Module Reading.
Record t : Type := mk
  { timestamp : Z;
    date : Z;
    energy_kWh : Q;
    on_off : Z;
    is_business_hours : Z;
    is_weekend : Z }.
End Reading.

(** The frame whose rows are [rs]: every column present, one cell per
    reading. *)
Definition frame_of (rs : list Reading.t) : DataFrame :=
  {| nrows := length rs;
     timestamp := Some (map Reading.timestamp rs);
     date := Some (map Reading.date rs);
     energy_5min_real_kWh := Some (map Reading.energy_kWh rs);
     on_off := Some (map Reading.on_off rs);
     is_business_hours := Some (map Reading.is_business_hours rs);
     is_weekend := Some (map Reading.is_weekend rs);
     energy_s1_kWh := None;
     energy_s2_kWh := None |}.

(* ------------------------------------------------------------------ *)
(** * Row-wise view of the scenario columns

    What the vectorised code computes, read off one reading at a time.
    These are the closed forms the run lemmas below arrive at. *)

Section RowWise.
Variable rs : list Reading.t.

Definition on_in_day (k : Z) (r : Reading.t) : bool :=
  (Reading.date r =? k) && (Reading.on_off r =? 1).

Definition last_on (k : Z) : option Z :=
  Series.max (map Reading.timestamp (filter (on_in_day k) rs)).

Definition early_off (k : Z) (r : Reading.t) : bool :=
  match last_on k with
  | None => false
  | Some last_time =>
      on_in_day k r
      && (last_time - Timedelta_hours 1 <? Reading.timestamp r)
      && (Reading.timestamp r <=? last_time)
  end.

Definition s1_energy (r : Reading.t) : Q :=
  if early_off (Reading.date r) r then 0%Q else Reading.energy_kWh r.

Definition s2_energy (r : Reading.t) : Q :=
  if Reading.is_business_hours r =? 0 then 0%Q else Reading.energy_kWh r.

Definition day_sum (f : Reading.t -> Q) (k : Z) : Q :=
  Series.sum (map f (filter (fun r => Reading.date r =? k) rs)).

Definition daily_of (f : Reading.t -> Q) : list Daily.row :=
  map (fun k => add_economia (k, day_sum Reading.energy_kWh k, day_sum f k))
      (unique_sorted (map Reading.date rs)).

Definition stats_of : ScenarioStats :=
  let total := Series.sum (map Reading.energy_kWh rs) in
  let t1 := Series.sum (map s1_energy rs) in
  let t2 := Series.sum (map s2_energy rs) in
  {| total_base_kWh := total;
     s1_total_kWh := t1;
     s1_economia_kWh := (total - t1)%Q;
     s1_economia_media_dia :=
       Series.mean (map Daily.economia_kWh (daily_of s1_energy));
     s1_daily := daily_of s1_energy;
     s2_total_kWh := t2;
     s2_economia_kWh := (total - t2)%Q;
     s2_economia_media_dia :=
       Series.mean (map Daily.economia_kWh (daily_of s2_energy));
     s2_daily := daily_of s2_energy |}.
End RowWise.

(** The spec's words for "the last instant of the day at which the unit was
    on". *)
Definition last_on_reading (rs : list Reading.t) (day last_time : Z) : Prop :=
  (exists r, In r rs /\ Reading.date r = day /\ Reading.on_off r = 1
             /\ Reading.timestamp r = last_time)
  /\ (forall r, In r rs -> Reading.date r = day -> Reading.on_off r = 1 ->
                 Reading.timestamp r <= last_time).

(** Running [m] leaves a frame whose column [col_of] is [col]. *)
Definition yields_column (m : M ref) (h : heap)
           (col_of : DataFrame -> option (list Q)) (col : list Q) : Prop :=
  exists (s : ref) (h' : heap) (d : DataFrame),
    m h = (Ok s, h') /\ nth_error h' s = Some d /\ col_of d = Some col.

(** The per-day rule of scenario 1 in the spec's words; [col] is the
    scenario-1 energy, one cell per reading. *)
Definition scenario1_rule (rs : list Reading.t) (col : list Q) : Prop :=
  length col = length rs
  /\ forall day, In day (map Reading.date rs) ->
       ((forall r, In r rs -> Reading.date r = day -> Reading.on_off r <> 1) ->
        forall i r, nth_error rs i = Some r -> Reading.date r = day ->
                    nth_error col i = Some (Reading.energy_kWh r))
       /\
       ((exists r, In r rs /\ Reading.date r = day /\ Reading.on_off r = 1) ->
        exists last_time,
          last_on_reading rs day last_time
          /\ let cutoff := last_time - Timedelta_hours 1 in
             forall i r, nth_error rs i = Some r -> Reading.date r = day ->
               nth_error col i
               = Some (if (Reading.on_off r =? 1)
                          && (cutoff <? Reading.timestamp r)
                          && (Reading.timestamp r <=? last_time)
                       then 0%Q else Reading.energy_kWh r)).

(** The rule of scenario 2 in the spec's words. *)
Definition scenario2_rule (rs : list Reading.t) (col : list Q) : Prop :=
  Forall2 (fun r x =>
             (Reading.is_business_hours r = 0 -> x = 0%Q)
             /\ (Reading.is_business_hours r = 1 -> x = Reading.energy_kWh r))
          rs col.

(** Baseline energy summed over the readings whose business-hours flag is
    [v]. *)
Definition base_energy_where_bh (rs : list Reading.t) (v : Z) : Q :=
  Series.sum (map Reading.energy_kWh
                  (filter (fun r => Reading.is_business_hours r =? v) rs)).

(** The data-model invariant on the business-hours flag. *)
Definition binary_flags (rs : list Reading.t) : Prop :=
  Forall (fun r => Reading.is_business_hours r = 0
                   \/ Reading.is_business_hours r = 1) rs.

(** Conservation of one scenario's figures. *)
Definition conserved (total_base total_scenario savings : Q)
           (daily : list Daily.row) : Prop :=
  (savings == total_base - total_scenario)%Q
  /\ (Series.sum (map Daily.economia_kWh daily) == savings)%Q.

(** Scenario energy within [0, baseline], reading by reading. *)
Definition within_baseline (rs : list Reading.t) (col : list Q) : Prop :=
  Forall2 (fun r x => (0 <= x)%Q /\ (x <= Reading.energy_kWh r)%Q) rs col.

(** The dates of a daily aggregate are exactly the dates of the input, each
    once. *)
Definition day_complete (rs : list Reading.t) (daily : list Daily.row) : Prop :=
  NoDup (map Daily.date daily)
  /\ forall d, In d (map Daily.date daily) <-> In d (map Reading.date rs).

(** Integers that are exactly 0 or 1. *)
Definition zero_one (l : list Z) : Prop := Forall (fun v => v = 0 \/ v = 1) l.

(** A raw flag column whose cells are booleans or the numbers 0 and 1. *)
Definition raw_zero_one (c : RawColumn) : Prop :=
  match c with
  | BoolColumn _ => True
  | IntColumn l => zero_one l
  | FloatColumn l =>
      Forall (fun x => exists q, x = Some q /\ (q == 0 \/ q == 1)%Q) l
  end.

Definition raw_length (c : RawColumn) : nat :=
  match c with
  | BoolColumn l => length l
  | IntColumn l => length l
  | FloatColumn l => length l
  end.

(** What the Normalizer makes of an optional flag column: skipped when
    absent, exact 0/1 integers (one per cell) when present. *)
Definition flag_coerced (raw : option RawColumn) (out : option (list Z)) : Prop :=
  match raw with
  | None => out = None
  | Some c => exists l, out = Some l /\ zero_one l /\ length l = raw_length c
  end.

Definition flag_zero_one_if_present (raw : option RawColumn) : Prop :=
  match raw with
  | None => True
  | Some c => raw_zero_one c
  end.

(** [m] run on a heap that starts with [h0] leaves [h0] as it is (it may
    allocate and write beyond it), and a value it returns satisfies [P]. *)
Definition preserves (h0 : heap) {A} (m : M A) (P : A -> Prop) : Prop :=
  forall ext : heap,
    (exists ext', snd (m (h0 ++ ext)) = h0 ++ ext')
    /\ forall a, fst (m (h0 ++ ext)) = Ok a -> P a.

(* ------------------------------------------------------------------ *)
(** * Sample inputs *)

(** 2022-06-01, as days since the epoch, and an instant of that day. *)
Definition day0 : Z := 19144.
Definition at_time (hh mm : Z) : Z := day0 * 86400 + hh * 3600 + mm * 60.

(** The synthetic day of the spec: "on" readings at 09:00, 09:05, ...,
    17:00, 1 kWh each. *)
Definition synthetic_day : list Reading.t :=
  map (fun k => Reading.mk (at_time 9 0 + 300 * Z.of_nat k) day0 1 1 1 0)
      (seq 0 97).

(** Two days: the first with three "on" readings, the second without any. *)
Definition two_days : list Reading.t :=
  [ Reading.mk 0 0 1 1 1 0;
    Reading.mk 300 0 2 1 0 0;
    Reading.mk 4000 0 3 1 1 0;
    Reading.mk 4300 0 4 0 1 0;
    Reading.mk 86400 1 5 0 0 1;
    Reading.mk 90000 1 (7 # 2) 0 1 1 ].

(** A day whose "on" period lasts five minutes. *)
Definition short_day : list Reading.t :=
  [ Reading.mk 0 0 1 1 1 0;
    Reading.mk 300 0 2 1 0 0;
    Reading.mk 600 0 3 0 1 0 ].

(** A CSV whose business-hours flag holds the integer 2. *)
Definition raw_flag_two : RawFrame :=
  {| raw_nrows := 1;
     raw_timestamp := Some [0];
     raw_date := None;
     raw_energy_5min_real_kWh := Some [1%Q];
     raw_on_off := Some [1];
     raw_is_business_hours := Some (IntColumn [2]);
     raw_is_weekend := None |}.

(** A CSV with a boolean business-hours flag and no weekend flag. *)
Definition raw_bool_flag : RawFrame :=
  {| raw_nrows := 2;
     raw_timestamp := Some [0; 300];
     raw_date := None;
     raw_energy_5min_real_kWh := Some [1%Q; 2%Q];
     raw_on_off := Some [1; 0];
     raw_is_business_hours := Some (BoolColumn [true; false]);
     raw_is_weekend := None |}.

(** The statistics of an input without readings. *)
Definition empty_stats : ScenarioStats :=
  {| total_base_kWh := 0;
     s1_total_kWh := 0;
     s1_economia_kWh := 0;
     s1_economia_media_dia := None;
     s1_daily := [];
     s2_total_kWh := 0;
     s2_economia_kWh := 0;
     s2_economia_media_dia := None;
     s2_daily := [] |}.

(* ------------------------------------------------------------------ *)
(** * Frames as [load_data] leaves them *)

(** The readings' columns, with the two flag columns present or not. *)
Definition frame_with (rs : list Reading.t) (bh we : option (list Z))
  : DataFrame :=
  {| nrows := length rs;
     timestamp := Some (map Reading.timestamp rs);
     date := Some (map Reading.date rs);
     energy_5min_real_kWh := Some (map Reading.energy_kWh rs);
     on_off := Some (map Reading.on_off rs);
     is_business_hours := bh;
     is_weekend := we;
     energy_s1_kWh := None;
     energy_s2_kWh := None |}.

(** A CSV holding the readings: the date cells are read as midnight of the
    day, the flag columns are integer columns when they are there. *)
Definition csv_of (rs : list Reading.t) (with_bh with_we : bool) : RawFrame :=
  {| raw_nrows := length rs;
     raw_timestamp := Some (map Reading.timestamp rs);
     raw_date := Some (map (fun r => Reading.date r * 86400) rs);
     raw_energy_5min_real_kWh := Some (map Reading.energy_kWh rs);
     raw_on_off := Some (map Reading.on_off rs);
     raw_is_business_hours :=
       if with_bh then Some (IntColumn (map Reading.is_business_hours rs))
       else None;
     raw_is_weekend :=
       if with_we then Some (IntColumn (map Reading.is_weekend rs))
       else None |}.

(* ------------------------------------------------------------------ *)
(** * The page: sidebar filters and energy overview (lines 24, 151-248)

    Nothing is mutated here: [df_base] is only read and the filtered frame
    is a fresh copy, so this part is a function of the frame's value.  What
    the widgets return is an input.  The filtered frame keeps pandas' row
    labels, which nothing below reads.  The column [active_power_real] of
    [df_base], which the frame record does not hold, is passed beside the
    frame ([None] when the CSV lacks it) and filtered by the same mask.
    The monthly roll-ups over [year_month] are left out. *)

(** [TARIFA_KWH = 0.80] *)
Definition TARIFA_KWH : Q := 4 # 5.

(** [Series.min()]: [None] when empty. *)
Definition series_min (c : list Z) : option Z :=
  match c with
  | [] => None
  | x :: t => Some (fold_left Z.min t x)
  end.

(** [c.isin(vals)], [c >= v] *)
Definition isin (c vals : list Z) : list bool :=
  map (fun x => existsb (Z.eqb x) vals) c.
Definition ge_scalar (c : list Z) (v : Z) : list bool :=
  map (fun x => v <=? x) c.

(** What [st.sidebar.date_input] hands back: one date, or a tuple. *)
Inductive date_input : Type :=
| OneDate (d : Z)
| DateTuple (ds : list Z).

(** Lines 161-164; unpacking a tuple into two names needs two elements. *)
Definition unpack_date_range (date_range : date_input) : outcome (Z * Z) :=
  match date_range with
  | DateTuple [start_date; end_date] => Ok (start_date, end_date)
  | DateTuple _ => Raise ValueError
  | OneDate d => Ok (d, d)
  end.

(** The options of the two radio buttons. *)
Inductive business_mode : Type := Todos | SoComercial | SoForaDoComercial.
Inductive weekend_mode : Type := TodosOsDias | SoDiasUteis | SoFimDeSemana.

Definition business_vals (business_mode : business_mode) : list Z :=
  match business_mode with
  | Todos => [0; 1]
  | SoComercial => [1]
  | SoForaDoComercial => [0]
  end.

Definition weekend_vals (weekend_mode : weekend_mode) : list Z :=
  match weekend_mode with
  | TodosOsDias => [0; 1]
  | SoDiasUteis => [0]
  | SoFimDeSemana => [1]
  end.

(** Lines 192-197: [mask]. *)
Definition filter_mask (df_base : DataFrame) (start_date end_date : Z)
           (business_vals weekend_vals : list Z) : outcome (list bool) :=
  match date df_base with
  | None => Raise (KeyError "date")
  | Some dates =>
      match is_business_hours df_base with
      | None => Raise (KeyError "is_business_hours")
      | Some bh =>
          match is_weekend df_base with
          | None => Raise (KeyError "is_weekend")
          | Some we =>
              Ok (Series.mask_and
                    (Series.mask_and
                       (Series.mask_and (ge_scalar dates start_date)
                                        (Series.le_scalar dates end_date))
                       (isin bh business_vals))
                    (isin we weekend_vals))
          end
      end
  end.

(** [df[mask].copy()] *)
Definition getitem_mask (d : DataFrame) (mask : list bool) : DataFrame :=
  {| nrows := length (Series.select mask (seq 0 (nrows d)));
     timestamp := option_map (Series.select mask) (timestamp d);
     date := option_map (Series.select mask) (date d);
     energy_5min_real_kWh :=
       option_map (Series.select mask) (energy_5min_real_kWh d);
     on_off := option_map (Series.select mask) (on_off d);
     is_business_hours := option_map (Series.select mask) (is_business_hours d);
     is_weekend := option_map (Series.select mask) (is_weekend d);
     energy_s1_kWh := option_map (Series.select mask) (energy_s1_kWh d);
     energy_s2_kWh := option_map (Series.select mask) (energy_s2_kWh d) |}.

(** Lines 192-198: [df_base_filt]. *)
Definition df_base_filt (df_base : DataFrame) (start_date end_date : Z)
           (business_vals weekend_vals : list Z) : outcome DataFrame :=
  match filter_mask df_base start_date end_date business_vals weekend_vals with
  | Raise e => Raise e
  | Ok mask => Ok (getitem_mask df_base mask)
  end.

(** [df.empty] *)
Definition df_empty (d : DataFrame) : bool := Nat.eqb (nrows d) 0.

(** One row of [df_daily]. *)
Module DailyKpi.
Record row : Type := mk
  { date : Z;
    daily_energy_kWh : Q;
    daily_avg_power : option Q;
    daily_cost : Q }.
End DailyKpi.

(** Lines 207-215: [df_daily], from the filtered frame and its
    [active_power_real] column.  (When both aggregated columns are missing
    pandas names the two in one [KeyError]; here the first is named.) *)
Definition df_daily (filt : DataFrame) (active_power_real : option (list Q))
  : outcome (list DailyKpi.row) :=
  match date filt with
  | None => Raise (KeyError "date")
  | Some dates =>
      match energy_5min_real_kWh filt with
      | None => Raise (KeyError "energy_5min_real_kWh")
      | Some e =>
          match active_power_real with
          | None => Raise (KeyError "active_power_real")
          | Some power =>
              Ok (map (fun k =>
                         let day := Series.eq_scalar dates k in
                         let daily_energy_kWh :=
                           Series.sum (Series.select day e) in
                         {| DailyKpi.date := k;
                            DailyKpi.daily_energy_kWh := daily_energy_kWh;
                            DailyKpi.daily_avg_power :=
                              Series.mean (Series.select day power);
                            DailyKpi.daily_cost :=
                              (daily_energy_kWh * TARIFA_KWH)%Q |})
                      (unique_sorted dates))
          end
      end
  end.

(** The three metrics of the tab "Visao geral de energia" (lines 241-243). *)
Record Overview : Type := mkOverview
  { total_energy : Q;
    total_cost : Q;
    media_diaria : option Q }.

(** Lines 161-248 for that tab; [None] is the page stopped by [st.stop()]
    after the warning of an empty selection. *)
Definition energy_overview (df_base : DataFrame)
           (active_power_real : option (list Q)) (date_range : date_input)
           (business_mode : business_mode) (weekend_mode : weekend_mode)
  : outcome (option Overview) :=
  match unpack_date_range date_range with
  | Raise e => Raise e
  | Ok (start_date, end_date) =>
      match filter_mask df_base start_date end_date
                        (business_vals business_mode)
                        (weekend_vals weekend_mode) with
      | Raise e => Raise e
      | Ok mask =>
          let filt := getitem_mask df_base mask in
          let power_filt :=
            option_map (Series.select mask) active_power_real in
          if df_empty filt then Ok None
          else
            match df_daily filt power_filt with
            | Raise e => Raise e
            | Ok daily =>
                let energies := map DailyKpi.daily_energy_kWh daily in
                Ok (Some {| total_energy := Series.sum energies;
                            total_cost :=
                              Series.sum (map DailyKpi.daily_cost daily);
                            media_diaria := Series.mean energies |})
            end
      end
  end.

(** The readings a view keeps. *)
Definition in_view (start_date end_date : Z) (bvals wvals : list Z)
           (r : Reading.t) : bool :=
  (start_date <=? Reading.date r) && (Reading.date r <=? end_date)
  && existsb (Z.eqb (Reading.is_business_hours r)) bvals
  && existsb (Z.eqb (Reading.is_weekend r)) wvals.

(** Both flags are 0 or 1 on every reading. *)
Definition all_flags_binary (rs : list Reading.t) : Prop :=
  Forall (fun r => (Reading.is_business_hours r = 0
                    \/ Reading.is_business_hours r = 1)
                   /\ (Reading.is_weekend r = 0 \/ Reading.is_weekend r = 1))
         rs.

(* ================================================================== *)
(** * Lemmas on the vectorised operations *)

Section MapFusion.
Context {R : Type}.
Variable rs : list R.

Lemma mask_and_map (p q : R -> bool) :
  Series.mask_and (map p rs) (map q rs) = map (fun r => p r && q r) rs.
Proof. induction rs as [|r t IH]; simpl; [reflexivity | now rewrite IH]. Qed.

Lemma eq_scalar_map (f : R -> Z) (v : Z) :
  Series.eq_scalar (map f rs) v = map (fun r => f r =? v) rs.
Proof. unfold Series.eq_scalar. now rewrite map_map. Qed.

Lemma gt_scalar_map (f : R -> Z) (v : Z) :
  Series.gt_scalar (map f rs) v = map (fun r => v <? f r) rs.
Proof. unfold Series.gt_scalar. now rewrite map_map. Qed.

Lemma le_scalar_map (f : R -> Z) (v : Z) :
  Series.le_scalar (map f rs) v = map (fun r => f r <=? v) rs.
Proof. unfold Series.le_scalar. now rewrite map_map. Qed.

Lemma any_map (p : R -> bool) :
  Series.any (map p rs) = existsb p rs.
Proof.
  unfold Series.any. induction rs as [|r t IH]; simpl; [reflexivity | now rewrite IH].
Qed.

Lemma select_map {A} (p : R -> bool) (f : R -> A) :
  Series.select (map p rs) (map f rs) = map f (filter p rs).
Proof.
  induction rs as [|r t IH]; simpl; [reflexivity|].
  destruct (p r); simpl; now rewrite IH.
Qed.

Lemma loc_assign_map (p : R -> bool) (g : R -> Q) (v : Q) :
  Series.loc_assign (map p rs) (map g rs) v
  = map (fun r => if p r then v else g r) rs.
Proof. induction rs as [|r t IH]; simpl; [reflexivity | now rewrite IH]. Qed.

Lemma existsb_filter_nil (p : R -> bool) :
  existsb p rs = false -> filter p rs = [].
Proof.
  induction rs as [|r t IH]; simpl; [reflexivity|].
  destruct (p r); simpl; [discriminate | exact IH].
Qed.

Lemma existsb_filter_cons (p : R -> bool) :
  existsb p rs = true -> exists x l, filter p rs = x :: l.
Proof.
  induction rs as [|r t IH]; simpl; [discriminate|].
  destruct (p r); simpl; eauto.
Qed.
End MapFusion.

(** [index.isin] of a group's labels is the mask "key = k". *)
Lemma existsb_positions_ge (i start : nat) (k : Z) (keys : list Z) :
  (i < start)%nat -> existsb (Nat.eqb i) (positions_from start k keys) = false.
Proof.
  revert start. induction keys as [|x t IH]; intros start Hlt; simpl; [reflexivity|].
  destruct (x =? k); simpl.
  - rewrite IH by lia. destruct (Nat.eqb_spec i start); [lia | reflexivity].
  - apply IH. lia.
Qed.

Lemma isin_positions_from (start : nat) (k : Z) (keys : list Z) :
  map (fun i => existsb (Nat.eqb i) (positions_from start k keys))
      (seq start (length keys))
  = Series.eq_scalar keys k.
Proof.
  revert start. induction keys as [|x t IH]; intros start; simpl; [reflexivity|].
  destruct (x =? k) eqn:E; simpl.
  - rewrite Nat.eqb_refl. simpl. f_equal.
    rewrite <- (IH (S start)). apply map_ext_in.
    intros i Hi. apply in_seq in Hi.
    destruct (Nat.eqb_spec i start); [lia | reflexivity].
  - rewrite existsb_positions_ge by lia. f_equal. apply IH.
Qed.

Lemma index_isin_group (k : Z) (keys : list Z) :
  index_isin (length keys) (positions_from 0 k keys) = Series.eq_scalar keys k.
Proof. apply isin_positions_from. Qed.

Lemma index_isin_map {R} (f : R -> Z) (k : Z) (rs : list R) :
  index_isin (length rs) (positions_from 0 k (map f rs))
  = map (fun r => f r =? k) rs.
Proof.
  rewrite <- (length_map f rs), index_isin_group. apply eq_scalar_map.
Qed.

(* ================================================================== *)
(** * Lemmas on group keys *)

Lemma in_insert_key (x k : Z) (l : list Z) :
  In x (insert_key k l) <-> x = k \/ In x l.
Proof.
  induction l as [|y t IH]; simpl.
  - intuition.
  - destruct (Z.ltb_spec k y); [simpl; intuition|].
    destruct (Z.eqb_spec k y); simpl; [subst; intuition|].
    rewrite IH. intuition.
Qed.

Lemma in_unique_sorted (x : Z) (keys : list Z) :
  In x (unique_sorted keys) <-> In x keys.
Proof.
  induction keys as [|k t IH]; simpl; [reflexivity|].
  rewrite in_insert_key, IH. intuition.
Qed.

Lemma insert_key_sorted (k : Z) (l : list Z) :
  StronglySorted Z.lt l -> StronglySorted Z.lt (insert_key k l).
Proof.
  induction 1 as [|y t Hs IH Hall]; simpl.
  - repeat constructor.
  - destruct (Z.ltb_spec k y).
    + constructor; [now constructor|].
      constructor; [assumption|].
      eapply Forall_impl; [|exact Hall]. intros; simpl in *; lia.
    + destruct (Z.eqb_spec k y); [now constructor|].
      constructor; [exact IH|].
      apply Forall_forall. intros x Hx. apply in_insert_key in Hx.
      destruct Hx as [-> | Hx]; [lia|].
      rewrite Forall_forall in Hall. now apply Hall.
Qed.

Lemma unique_sorted_sorted (keys : list Z) :
  StronglySorted Z.lt (unique_sorted keys).
Proof.
  induction keys as [|k t IH]; simpl; [constructor | now apply insert_key_sorted].
Qed.

Lemma sorted_NoDup (l : list Z) : StronglySorted Z.lt l -> NoDup l.
Proof.
  induction 1 as [|y t Hs IH Hall]; constructor; [|exact IH].
  intros Hin. rewrite Forall_forall in Hall. specialize (Hall _ Hin). lia.
Qed.

Lemma unique_sorted_NoDup (keys : list Z) : NoDup (unique_sorted keys).
Proof. apply sorted_NoDup, unique_sorted_sorted. Qed.

(* ================================================================== *)
(** * Lemmas on the heap and on running the primitives *)

Lemma nth_error_snoc (h : heap) (d : DataFrame) :
  nth_error (h ++ [d]) (length h) = Some d.
Proof. rewrite nth_error_app2, Nat.sub_diag; [reflexivity | lia]. Qed.

Lemma heap_set_snoc (h : heap) (d d' : DataFrame) :
  heap_set (h ++ [d]) (length h) d' = h ++ [d'].
Proof. induction h as [|x t IH]; simpl; [reflexivity | now rewrite IH]. Qed.

Lemma bind_ok {A B} (m : M A) (k : A -> M B) (h h' : heap) (a : A) :
  m h = (Ok a, h') -> bind m k h = k a h'.
Proof. intros E. unfold bind. now rewrite E. Qed.

Lemma df_read_ok (r : ref) (h : heap) (d : DataFrame) :
  nth_error h r = Some d -> df_read r h = (Ok d, h).
Proof. intros E. unfold df_read. now rewrite E. Qed.

Lemma df_copy_ok (r : ref) (h : heap) (d : DataFrame) :
  nth_error h r = Some d -> df_copy r h = (Ok (length h), h ++ [d]).
Proof. intros E. unfold df_copy. now rewrite E. Qed.

Lemma df_len_ok (r : ref) (h : heap) (d : DataFrame) :
  nth_error h r = Some d -> df_len r h = (Ok (nrows d), h).
Proof.
  intros E. unfold df_len. now rewrite (bind_ok _ _ _ _ _ (df_read_ok _ _ _ E)).
Qed.

Lemma getitem_ok {A} (r : ref) (col : DataFrame -> option (list A))
      (name : string) (h : heap) (d : DataFrame) (c : list A) :
  nth_error h r = Some d -> col d = Some c ->
  getitem r col name h = (Ok c, h).
Proof.
  intros E Ec. unfold getitem.
  rewrite (bind_ok _ _ _ _ _ (df_read_ok _ _ _ E)), Ec. reflexivity.
Qed.

Lemma setitem_snoc {A} (set : DataFrame -> list A -> DataFrame)
      (c : list A) (h : heap) (d : DataFrame) :
  setitem (length h) set c (h ++ [d]) = (Ok tt, h ++ [set d c]).
Proof.
  unfold setitem.
  rewrite (bind_ok _ _ _ _ _ (df_read_ok _ _ _ (nth_error_snoc h d))).
  unfold df_write. now rewrite nth_error_snoc, heap_set_snoc.
Qed.

Lemma loc_setitem_snoc (col : DataFrame -> option (list Q)) (name : string)
      (set : DataFrame -> list Q -> DataFrame) (mask : list bool) (v : Q)
      (h : heap) (d : DataFrame) (c : list Q) :
  col d = Some c ->
  loc_setitem (length h) col name set mask v (h ++ [d])
  = (Ok tt, h ++ [set d (Series.loc_assign mask c v)]).
Proof.
  intros Ec. unfold loc_setitem.
  rewrite (bind_ok _ _ _ _ _ (getitem_ok _ _ name _ _ _ (nth_error_snoc h d) Ec)).
  apply setitem_snoc.
Qed.

(** One step of a run on a heap whose last cell is the frame at work. *)
Ltac run_step :=
  erewrite bind_ok;
  [| solve [ eapply getitem_ok; [apply nth_error_snoc | reflexivity]
           | eapply df_len_ok; apply nth_error_snoc
           | apply setitem_snoc
           | eapply loc_setitem_snoc; reflexivity
           | eapply df_copy_ok; eassumption ] ].

(* ================================================================== *)
(** * Scenario 1: running the per-day loop *)

Section Scenario1Run.
Variable rs : list Reading.t.
Variable h0 : heap.

Let F := frame_of rs.

Lemma early_shutoff_day_run (g : Reading.t -> Q) (k : Z) :
  early_shutoff_day (length h0)
    (k, positions_from 0 k (map Reading.date rs))
    (h0 ++ [set_energy_s1_kWh F (map g rs)])
  = (Ok tt,
     h0 ++ [set_energy_s1_kWh F
              (map (fun r => if early_off rs k r then 0%Q else g r) rs)]).
Proof.
  unfold early_shutoff_day.
  run_step. run_step. cbn [nrows set_energy_s1_kWh F frame_of].
  rewrite index_isin_map, eq_scalar_map, mask_and_map, any_map.
  unfold early_off, last_on, on_in_day.
  destruct (existsb _ rs) eqn:Eany; cbn [negb].
  - run_step. rewrite select_map.
    destruct (Series.max _) as [last_time|] eqn:Emax.
    + erewrite loc_setitem_snoc by reflexivity.
      rewrite gt_scalar_map, le_scalar_map, !mask_and_map, loc_assign_map.
      reflexivity.
    + reflexivity.
  - rewrite (existsb_filter_nil _ _ Eany). reflexivity.
Qed.

Lemma early_shutoff_loop_run (keys : list Z) (g : Reading.t -> Q) :
  for_each (map (fun k => (k, positions_from 0 k (map Reading.date rs))) keys)
           (early_shutoff_day (length h0))
           (h0 ++ [set_energy_s1_kWh F (map g rs)])
  = (Ok tt,
     h0 ++ [set_energy_s1_kWh F
              (map (fun r => if existsb (fun k => early_off rs k r) keys
                             then 0%Q else g r) rs)]).
Proof.
  revert g. induction keys as [|k t IH]; intros g; cbn [for_each map existsb].
  - reflexivity.
  - rewrite (bind_ok _ _ _ _ _ (early_shutoff_day_run g k)), IH.
    do 4 f_equal. apply map_ext. intros r.
    destruct (early_off rs k r), (existsb _ t); reflexivity.
Qed.
End Scenario1Run.

(* ================================================================== *)
(** * Closed forms of the scenario frames and of [compute_scenarios] *)

Lemma early_off_date (rs : list Reading.t) (k : Z) (r : Reading.t) :
  early_off rs k r = true -> Reading.date r = k.
Proof.
  unfold early_off, on_in_day. destruct (last_on rs k); [|discriminate].
  rewrite !andb_true_iff. intros [[[H _] _] _]. now apply Z.eqb_eq.
Qed.

Lemma existsb_early_off (rs : list Reading.t) (r : Reading.t) :
  In r rs ->
  existsb (fun k => early_off rs k r) (unique_sorted (map Reading.date rs))
  = early_off rs (Reading.date r) r.
Proof.
  intros Hin. apply eq_true_iff_eq. rewrite existsb_exists. split.
  - intros [k [_ Hk]]. now rewrite (early_off_date _ _ _ Hk).
  - intros H. exists (Reading.date r). split; [|exact H].
    apply in_unique_sorted, in_map, Hin.
Qed.

Lemma cenario1_run (h : heap) (base : ref) (rs : list Reading.t) :
  nth_error h base = Some (frame_of rs) ->
  cenario1 base h
  = (Ok (length h),
     h ++ [set_energy_s1_kWh (frame_of rs) (map (s1_energy rs) rs)]).
Proof.
  intros Hbase. unfold cenario1.
  run_step. run_step. run_step. run_step.
  unfold groupby_groups.
  rewrite (bind_ok _ _ _ _ _ (early_shutoff_loop_run rs h _ _)).
  unfold ret. do 4 f_equal. apply map_ext_in. intros r Hr.
  unfold s1_energy. now rewrite existsb_early_off.
Qed.

Lemma cenario2_run (h : heap) (base : ref) (rs : list Reading.t) :
  nth_error h base = Some (frame_of rs) ->
  cenario2 base h
  = (Ok (length h),
     h ++ [set_energy_s2_kWh (frame_of rs) (map s2_energy rs)]).
Proof.
  intros Hbase. unfold cenario2.
  run_step. run_step. run_step. run_step.
  erewrite bind_ok by (eapply loc_setitem_snoc; reflexivity).
  cbn [is_business_hours set_energy_s2_kWh frame_of].
  rewrite eq_scalar_map, loc_assign_map. reflexivity.
Qed.

Lemma groupby_agg_sum_map (rs : list Reading.t) (f : Reading.t -> Q) :
  map add_economia
      (groupby_agg_sum (map Reading.date rs) (map Reading.energy_kWh rs)
                       (map f rs))
  = daily_of rs f.
Proof.
  unfold groupby_agg_sum, daily_of, day_sum. rewrite map_map.
  apply map_ext. intros k. now rewrite eq_scalar_map, !select_map.
Qed.

Lemma daily_agg_ok (s : ref) (scen : DataFrame -> option (list Q))
      (name : string) (h : heap) (d : DataFrame) (ds : list Z) (b c : list Q) :
  nth_error h s = Some d ->
  date d = Some ds -> energy_5min_real_kWh d = Some b -> scen d = Some c ->
  daily_agg s scen name h = (Ok (map add_economia (groupby_agg_sum ds b c)), h).
Proof.
  intros E Ed Eb Ec. unfold daily_agg.
  rewrite (bind_ok _ _ _ _ _ (getitem_ok _ _ _ _ _ _ E Ed)).
  rewrite (bind_ok _ _ _ _ _ (getitem_ok _ _ _ _ _ _ E Eb)).
  rewrite (bind_ok _ _ _ _ _ (getitem_ok _ _ _ _ _ _ E Ec)).
  reflexivity.
Qed.

Lemma compute_scenarios_run (h : heap) (base0 : ref) (rs : list Reading.t) :
  nth_error h base0 = Some (frame_of rs) ->
  compute_scenarios base0 h
  = (Ok (stats_of rs),
     h ++ [frame_of rs;
           set_energy_s1_kWh (frame_of rs) (map (s1_energy rs) rs);
           set_energy_s2_kWh (frame_of rs) (map s2_energy rs)]).
Proof.
  intros Hbase. unfold compute_scenarios.
  run_step. run_step.
  rewrite (bind_ok _ _ _ _ _ (cenario1_run _ _ rs (nth_error_snoc h _))).
  run_step.
  erewrite bind_ok
    by (eapply daily_agg_ok; [apply nth_error_snoc | reflexivity ..]).
  assert (Hb : nth_error ((h ++ [frame_of rs]) ++
              [set_energy_s1_kWh (frame_of rs) (map (s1_energy rs) rs)])
              (length h) = Some (frame_of rs)).
  { rewrite nth_error_app1 by (rewrite length_app; simpl; lia).
    apply nth_error_snoc. }
  rewrite (bind_ok _ _ _ _ _ (cenario2_run _ _ rs Hb)).
  run_step.
  erewrite bind_ok
    by (eapply daily_agg_ok; [apply nth_error_snoc | reflexivity ..]).
  unfold ret.
  cbn [set_energy_s1_kWh set_energy_s2_kWh frame_of energy_5min_real_kWh
       energy_s1_kWh energy_s2_kWh date].
  rewrite !groupby_agg_sum_map, <- !app_assoc. reflexivity.
Qed.

(* ================================================================== *)
(** * The last "on" instant of a day *)

Lemma fold_max_spec (t : list Z) (x : Z) :
  In (fold_left Z.max t x) (x :: t)
  /\ forall y, In y (x :: t) -> y <= fold_left Z.max t x.
Proof.
  revert x. induction t as [|z t IH]; intros x; simpl.
  - split; [now left | intros y [<- | []]; lia].
  - destruct (IH (Z.max x z)) as [Hin Hle]. split.
    + destruct Hin as [Hin | Hin]; [|now right; right].
      rewrite <- Hin. destruct (Z.max_spec x z) as [[_ ->] | [_ ->]]; auto.
    + intros y Hy.
      assert (Hm : Z.max x z <= fold_left Z.max t (Z.max x z))
        by (apply Hle; now left).
      destruct Hy as [<- | [<- | Hy]]; [lia | lia |].
      apply Hle. now right.
Qed.

Lemma series_max_spec (c : list Z) (m : Z) :
  Series.max c = Some m -> In m c /\ forall y, In y c -> y <= m.
Proof.
  destruct c as [|x t]; simpl; [discriminate|].
  intros [= <-]. apply fold_max_spec.
Qed.

Lemma series_max_none (c : list Z) : Series.max c = None -> c = [].
Proof. destruct c; [reflexivity | discriminate]. Qed.

Lemma on_in_day_spec (k : Z) (r : Reading.t) :
  on_in_day k r = true <-> Reading.date r = k /\ Reading.on_off r = 1.
Proof. unfold on_in_day. now rewrite andb_true_iff, !Z.eqb_eq. Qed.

Lemma in_on_timestamps (rs : list Reading.t) (k t : Z) :
  In t (map Reading.timestamp (filter (on_in_day k) rs))
  <-> exists r, In r rs /\ Reading.date r = k /\ Reading.on_off r = 1
                /\ Reading.timestamp r = t.
Proof.
  rewrite in_map_iff. split.
  - intros [r [Ht Hr]]. apply filter_In in Hr. destruct Hr as [Hr Hon].
    apply on_in_day_spec in Hon. exists r. tauto.
  - intros [r [Hr [Hd [Hon Ht]]]]. exists r. split; [exact Ht|].
    apply filter_In. split; [exact Hr|]. now apply on_in_day_spec.
Qed.

Lemma last_on_some (rs : list Reading.t) (k t : Z) :
  last_on rs k = Some t <-> last_on_reading rs k t.
Proof.
  unfold last_on, last_on_reading. split.
  - intros E. apply series_max_spec in E. destruct E as [Hin Hle]. split.
    + now apply in_on_timestamps.
    + intros r Hr Hd Hon. apply Hle, in_on_timestamps. exists r. tauto.
  - intros [Hex Hle].
    destruct (Series.max _) as [m|] eqn:E.
    + apply series_max_spec in E. destruct E as [Hin Hmax].
      apply in_on_timestamps in Hin. destruct Hin as [r [Hr [Hd [Hon Ht]]]].
      specialize (Hle r Hr Hd Hon).
      apply in_on_timestamps in Hex. specialize (Hmax _ Hex).
      f_equal. lia.
    + apply series_max_none in E. apply in_on_timestamps in Hex.
      rewrite E in Hex. destruct Hex.
Qed.

Lemma last_on_exists (rs : list Reading.t) (k : Z) :
  (exists r, In r rs /\ Reading.date r = k /\ Reading.on_off r = 1) ->
  exists t, last_on_reading rs k t.
Proof.
  intros [r [Hr [Hd Hon]]].
  destruct (last_on rs k) as [t|] eqn:E.
  - exists t. now apply last_on_some.
  - unfold last_on in E. apply series_max_none in E.
    assert (Hin : In (Reading.timestamp r)
                     (map Reading.timestamp (filter (on_in_day k) rs)))
      by (apply in_on_timestamps; exists r; tauto).
    rewrite E in Hin. destruct Hin.
Qed.

Lemma s1_energy_off_day (rs : list Reading.t) (r : Reading.t) :
  Reading.on_off r <> 1 -> s1_energy rs r = Reading.energy_kWh r.
Proof.
  intros Hoff. unfold s1_energy, early_off, on_in_day.
  destruct (Z.eqb_spec (Reading.on_off r) 1); [contradiction|].
  rewrite andb_false_r. now destruct (last_on rs (Reading.date r)).
Qed.

Lemma s1_energy_on_day (rs : list Reading.t) (r : Reading.t) (last_time : Z) :
  last_on_reading rs (Reading.date r) last_time ->
  s1_energy rs r
  = if (Reading.on_off r =? 1)
       && (last_time - Timedelta_hours 1 <? Reading.timestamp r)
       && (Reading.timestamp r <=? last_time)
    then 0%Q else Reading.energy_kWh r.
Proof.
  intros Hl. apply last_on_some in Hl.
  unfold s1_energy, early_off, on_in_day. now rewrite Hl, Z.eqb_refl.
Qed.

(* ================================================================== *)
(** * Sums *)

Section Sums.
Local Open Scope Q_scope.

Lemma sum_cons (x : Q) (l : list Q) : Series.sum (x :: l) = x + Series.sum l.
Proof. reflexivity. Qed.

Context {A : Type}.

Lemma sum_map_ext (f g : A -> Q) (l : list A) :
  (forall x, In x l -> f x == g x) ->
  Series.sum (map f l) == Series.sum (map g l).
Proof.
  induction l as [|a t IH]; intros H; cbn [map]; [reflexivity|].
  rewrite !sum_cons, IH, (H a) by (intros; apply H; now right) || now left.
  reflexivity.
Qed.

Lemma sum_map_plus (f g : A -> Q) (l : list A) :
  Series.sum (map (fun x => f x + g x) l)
  == Series.sum (map f l) + Series.sum (map g l).
Proof.
  induction l as [|a t IH]; cbn [map]; [reflexivity|].
  rewrite !sum_cons, IH. ring.
Qed.

Lemma sum_map_minus (f g : A -> Q) (l : list A) :
  Series.sum (map (fun x => f x - g x) l)
  == Series.sum (map f l) - Series.sum (map g l).
Proof.
  induction l as [|a t IH]; cbn [map]; [reflexivity|].
  rewrite !sum_cons, IH. ring.
Qed.

Lemma sum_map_le (f g : A -> Q) (l : list A) :
  (forall x, In x l -> f x <= g x) ->
  Series.sum (map f l) <= Series.sum (map g l).
Proof.
  induction l as [|a t IH]; intros H; cbn [map]; [apply Qle_refl|].
  rewrite !sum_cons.
  assert (f a <= g a) by (apply H; now left).
  assert (Series.sum (map f t) <= Series.sum (map g t))
    by (apply IH; intros; apply H; now right).
  lra.
Qed.
End Sums.

Section DaySums.
Local Open Scope Q_scope.

Lemma sum_delta_out (d : Z) (x : Q) (keys : list Z) :
  ~ In d keys ->
  Series.sum (map (fun k => if (d =? k)%Z then x else 0) keys) == 0.
Proof.
  induction keys as [|k t IH]; intros Hn; cbn [map]; [reflexivity|].
  rewrite sum_cons, IH by (intros Hin; apply Hn; now right).
  destruct (Z.eqb_spec d k); [exfalso; apply Hn; now left | ring].
Qed.

Lemma sum_delta_in (d : Z) (x : Q) (keys : list Z) :
  NoDup keys -> In d keys ->
  Series.sum (map (fun k => if (d =? k)%Z then x else 0) keys) == x.
Proof.
  induction 1 as [|k t Hk Hnd IH]; intros Hin; [destruct Hin|].
  cbn [map]. rewrite sum_cons.
  destruct (Z.eqb_spec d k) as [->|Hne].
  - rewrite sum_delta_out by exact Hk. ring.
  - rewrite IH by (destruct Hin; [congruence | assumption]). ring.
Qed.

Variable f : Reading.t -> Q.

Lemma day_sum_cons (r : Reading.t) (rs : list Reading.t) (k : Z) :
  day_sum (r :: rs) f k
  == (if (Reading.date r =? k)%Z then f r else 0) + day_sum rs f k.
Proof.
  unfold day_sum. cbn [filter].
  destruct (Reading.date r =? k)%Z; cbn [map]; [rewrite sum_cons|]; ring.
Qed.

(** Summing the per-day sums over the group keys gives the whole sum. *)
Lemma sum_day_sums (keys : list Z) (rs : list Reading.t) :
  NoDup keys -> (forall r, In r rs -> In (Reading.date r) keys) ->
  Series.sum (map (day_sum rs f) keys) == Series.sum (map f rs).
Proof.
  intros Hnd. induction rs as [|r t IH]; intros Hin.
  - cbn [map]. unfold day_sum. cbn [filter map].
    induction keys as [|k ks IHk]; cbn [map]; [reflexivity|].
    rewrite sum_cons, IHk by (now inversion Hnd). reflexivity.
  - cbn [map]. rewrite sum_cons.
    rewrite (sum_map_ext _ _ _ (fun k _ => day_sum_cons r t k)).
    rewrite sum_map_plus, IH by (intros; apply Hin; now right).
    rewrite sum_delta_in; [reflexivity | exact Hnd | apply Hin; now left].
Qed.
End DaySums.

Lemma daily_of_economia (rs : list Reading.t) (f : Reading.t -> Q) :
  map Daily.economia_kWh (daily_of rs f)
  = map (fun k => (day_sum rs Reading.energy_kWh k - day_sum rs f k)%Q)
        (unique_sorted (map Reading.date rs)).
Proof. unfold daily_of. now rewrite map_map. Qed.

Lemma daily_of_date (rs : list Reading.t) (f : Reading.t -> Q) :
  map Daily.date (daily_of rs f) = unique_sorted (map Reading.date rs).
Proof. unfold daily_of. rewrite map_map. apply map_id. Qed.

Lemma daily_savings_total (rs : list Reading.t) (f : Reading.t -> Q) :
  (Series.sum (map Daily.economia_kWh (daily_of rs f))
   == Series.sum (map Reading.energy_kWh rs) - Series.sum (map f rs))%Q.
Proof.
  assert (Hin : forall r, In r rs ->
                  In (Reading.date r) (unique_sorted (map Reading.date rs)))
    by (intros r Hr; apply in_unique_sorted, in_map, Hr).
  rewrite daily_of_economia, sum_map_minus.
  rewrite !sum_day_sums by (apply unique_sorted_NoDup || exact Hin).
  reflexivity.
Qed.

Lemma compute_scenarios_returns (h : heap) (base0 : ref) (rs : list Reading.t) :
  nth_error h base0 = Some (frame_of rs) ->
  fst (compute_scenarios base0 h) = Ok (stats_of rs).
Proof. intros H. now rewrite (compute_scenarios_run _ _ _ H). Qed.

(* ================================================================== *)
(** * Row-wise facts on the two scenarios *)

Lemma Forall2_map_self {A B} (P : A -> B -> Prop) (f : A -> B) (l : list A) :
  (forall x, In x l -> P x (f x)) -> Forall2 P l (map f l).
Proof.
  induction l as [|a t IH]; intros H; cbn [map]; constructor.
  - apply H. now left.
  - apply IH. intros; apply H; now right.
Qed.

Section ZeroedSums.
Local Open Scope Q_scope.
Context {A : Type}.
Variables (p : A -> bool) (f : A -> Q).

Lemma sum_kept (l : list A) :
  Series.sum (map (fun x => if p x then 0 else f x) l)
  == Series.sum (map f (filter (fun x => negb (p x)) l)).
Proof.
  induction l as [|a t IH]; cbn [map filter]; [reflexivity|].
  rewrite sum_cons, IH. destruct (p a); cbn [negb map];
    [|rewrite sum_cons]; ring.
Qed.

Lemma sum_zeroed (l : list A) :
  Series.sum (map f l) - Series.sum (map (fun x => if p x then 0 else f x) l)
  == Series.sum (map f (filter p l)).
Proof.
  induction l as [|a t IH]; cbn [map filter]; [reflexivity|].
  rewrite !sum_cons. destruct (p a); cbn [map];
    [rewrite sum_cons|]; rewrite <- IH; ring.
Qed.
End ZeroedSums.

Lemma filter_bh_binary (rs : list Reading.t) :
  binary_flags rs ->
  filter (fun r => negb (Reading.is_business_hours r =? 0)) rs
  = filter (fun r => Reading.is_business_hours r =? 1) rs.
Proof.
  intros Hb. apply filter_ext_in. intros r Hr.
  unfold binary_flags in Hb. rewrite Forall_forall in Hb.
  destruct (Hb r Hr) as [-> | ->]; reflexivity.
Qed.

Lemma s1_energy_bounds (rs : list Reading.t) (r : Reading.t) :
  (0 <= Reading.energy_kWh r)%Q ->
  (0 <= s1_energy rs r)%Q /\ (s1_energy rs r <= Reading.energy_kWh r)%Q.
Proof.
  intros H. unfold s1_energy.
  destruct (early_off rs (Reading.date r) r); split;
    (exact H || apply Qle_refl).
Qed.

Lemma s2_energy_bounds (r : Reading.t) :
  (0 <= Reading.energy_kWh r)%Q ->
  (0 <= s2_energy r)%Q /\ (s2_energy r <= Reading.energy_kWh r)%Q.
Proof.
  intros H. unfold s2_energy.
  destruct (Reading.is_business_hours r =? 0); split;
    (exact H || apply Qle_refl).
Qed.

Lemma daily_of_savings_nonneg (rs : list Reading.t) (f : Reading.t -> Q) :
  (forall r, In r rs -> (f r <= Reading.energy_kWh r)%Q) ->
  Forall (fun row => (0 <= Daily.economia_kWh row)%Q) (daily_of rs f).
Proof.
  intros Hle. apply Forall_forall. intros row Hrow.
  unfold daily_of in Hrow. apply in_map_iff in Hrow.
  destruct Hrow as [k [<- _]]. cbn [add_economia Daily.economia_kWh].
  assert (H : (day_sum rs f k <= day_sum rs Reading.energy_kWh k)%Q).
  { unfold day_sum. apply sum_map_le. intros r Hr.
    apply filter_In in Hr. apply Hle, Hr. }
  lra.
Qed.

Lemma daily_of_complete (rs : list Reading.t) (f : Reading.t -> Q) :
  day_complete rs (daily_of rs f).
Proof.
  unfold day_complete. rewrite daily_of_date. split.
  - apply unique_sorted_NoDup.
  - intros d. apply in_unique_sorted.
Qed.

Lemma day_sum_s1_off_day (rs : list Reading.t) (day : Z) :
  (forall r, In r rs -> Reading.date r = day -> Reading.on_off r <> 1) ->
  day_sum rs (s1_energy rs) day = day_sum rs Reading.energy_kWh day.
Proof.
  intros Hoff. unfold day_sum. f_equal. apply map_ext_in. intros r Hr.
  apply filter_In in Hr. destruct Hr as [Hr Hd].
  apply s1_energy_off_day, Hoff; [exact Hr | now apply Z.eqb_eq].
Qed.

(* ================================================================== *)
(** * What a run leaves of the heap it started from *)

Lemma heap_set_app_r (h0 ext : heap) (r : ref) (d : DataFrame) :
  (length h0 <= r)%nat ->
  heap_set (h0 ++ ext) r d = h0 ++ heap_set ext (r - length h0)%nat d.
Proof.
  revert r. induction h0 as [|x t IH]; intros r Hr; simpl.
  - now rewrite Nat.sub_0_r.
  - destruct r as [|r]; [simpl in Hr; lia|].
    simpl. rewrite IH by (simpl in Hr; lia). reflexivity.
Qed.

Section Preservation.
Variable h0 : heap.

Let fresh (r : ref) : Prop := (length h0 <= r)%nat.
Let any_value {A} (_ : A) : Prop := True.

Lemma preserves_ret {A} (a : A) (P : A -> Prop) :
  P a -> preserves h0 (ret a) P.
Proof.
  intros Ha ext. split; [now exists ext | now intros a' [= <-]].
Qed.

Lemma preserves_raise {A} (e : exn) (P : A -> Prop) :
  preserves h0 (raise e) P.
Proof. intros ext. split; [now exists ext | discriminate]. Qed.

Lemma preserves_bind {A B} (m : M A) (k : A -> M B)
      (P : A -> Prop) (Q : B -> Prop) :
  preserves h0 m P -> (forall a, P a -> preserves h0 (k a) Q) ->
  preserves h0 (bind m k) Q.
Proof.
  intros Hm Hk ext. unfold bind.
  destruct (Hm ext) as [[ext1 Hs] Hp].
  destruct (m (h0 ++ ext)) as [[a|e] h1]; simpl in Hs, Hp; subst h1.
  - apply Hk, Hp. reflexivity.
  - split; [now exists ext1 | discriminate].
Qed.

Lemma preserves_df_read (r : ref) : preserves h0 (df_read r) any_value.
Proof.
  intros ext. unfold df_read.
  destruct (nth_error _ r); (split; [now exists ext | easy]).
Qed.

Lemma preserves_df_copy (r : ref) : preserves h0 (df_copy r) fresh.
Proof.
  intros ext. unfold df_copy, fresh.
  destruct (nth_error _ r); simpl.
  - split; [exists (ext ++ [d]); now rewrite app_assoc|].
    intros a [= <-]. rewrite length_app. lia.
  - split; [now exists ext | discriminate].
Qed.

Lemma preserves_df_write (r : ref) (d : DataFrame) :
  fresh r -> preserves h0 (df_write r d) any_value.
Proof.
  intros Hr ext. unfold df_write.
  destruct (nth_error _ r); simpl.
  - split; [|easy]. rewrite heap_set_app_r by exact Hr. eauto.
  - split; [now exists ext | easy].
Qed.

Lemma preserves_getitem {A} (r : ref)
      (col : DataFrame -> option (list A)) (name : string) :
  preserves h0 (getitem r col name) any_value.
Proof.
  unfold getitem. eapply preserves_bind; [apply preserves_df_read|].
  intros d _. destruct (col d);
    [now apply preserves_ret | apply preserves_raise].
Qed.

Lemma preserves_df_len (r : ref) : preserves h0 (df_len r) any_value.
Proof.
  unfold df_len. eapply preserves_bind; [apply preserves_df_read|].
  intros d _. now apply preserves_ret.
Qed.

Lemma preserves_setitem {A} (r : ref)
      (set : DataFrame -> list A -> DataFrame) (c : list A) :
  fresh r -> preserves h0 (setitem r set c) any_value.
Proof.
  intros Hr. unfold setitem.
  eapply preserves_bind; [apply preserves_df_read|].
  intros d _. now apply preserves_df_write.
Qed.

Lemma preserves_loc_setitem (r : ref) (col : DataFrame -> option (list Q))
      (name : string) (set : DataFrame -> list Q -> DataFrame)
      (mask : list bool) (v : Q) :
  fresh r -> preserves h0 (loc_setitem r col name set mask v) any_value.
Proof.
  intros Hr. unfold loc_setitem.
  eapply preserves_bind; [apply preserves_getitem|].
  intros c _. now apply preserves_setitem.
Qed.

Lemma preserves_for_each {A} (l : list A) (body : A -> M unit) :
  (forall x, preserves h0 (body x) any_value) ->
  preserves h0 (for_each l body) any_value.
Proof.
  intros Hb. induction l as [|x t IH]; cbn [for_each].
  - now apply preserves_ret.
  - eapply preserves_bind; [apply Hb | intros _ _; exact IH].
Qed.

Lemma preserves_early_shutoff_day (s1 : ref) (group : Z * list nat) :
  fresh s1 -> preserves h0 (early_shutoff_day s1 group) any_value.
Proof.
  intros Hs. destruct group as [current_date idx]. unfold early_shutoff_day.
  eapply preserves_bind; [apply preserves_df_len | intros n _].
  eapply preserves_bind; [apply preserves_getitem | intros on _].
  destruct (negb _); [now apply preserves_ret|].
  eapply preserves_bind; [apply preserves_getitem | intros ts _].
  destruct (Series.max _);
    [now apply preserves_loc_setitem | now apply preserves_ret].
Qed.

Lemma preserves_cenario1 (base : ref) : preserves h0 (cenario1 base) fresh.
Proof.
  unfold cenario1.
  eapply preserves_bind; [apply preserves_df_copy | intros s1 Hs].
  eapply preserves_bind; [apply preserves_getitem | intros e _].
  eapply preserves_bind; [now apply preserves_setitem | intros _ _].
  eapply preserves_bind; [apply preserves_getitem | intros dates _].
  eapply preserves_bind;
    [apply preserves_for_each; intros g;
     now apply preserves_early_shutoff_day | intros _ _].
  now apply preserves_ret.
Qed.

Lemma preserves_cenario2 (base : ref) : preserves h0 (cenario2 base) fresh.
Proof.
  unfold cenario2.
  eapply preserves_bind; [apply preserves_df_copy | intros s2 Hs].
  eapply preserves_bind; [apply preserves_getitem | intros e _].
  eapply preserves_bind; [now apply preserves_setitem | intros _ _].
  eapply preserves_bind; [apply preserves_getitem | intros bh _].
  eapply preserves_bind; [now apply preserves_loc_setitem | intros _ _].
  now apply preserves_ret.
Qed.

Lemma preserves_daily_agg (s : ref) (scen : DataFrame -> option (list Q))
      (name : string) :
  preserves h0 (daily_agg s scen name) any_value.
Proof.
  unfold daily_agg.
  eapply preserves_bind; [apply preserves_getitem | intros dates _].
  eapply preserves_bind; [apply preserves_getitem | intros b _].
  eapply preserves_bind; [apply preserves_getitem | intros c _].
  now apply preserves_ret.
Qed.

Lemma preserves_compute_scenarios (base0 : ref) :
  preserves h0 (compute_scenarios base0) any_value.
Proof.
  unfold compute_scenarios.
  eapply preserves_bind; [apply preserves_df_copy | intros base _].
  eapply preserves_bind; [apply preserves_getitem | intros e _].
  eapply preserves_bind; [apply preserves_cenario1 | intros s1 _].
  eapply preserves_bind; [apply preserves_getitem | intros e1 _].
  eapply preserves_bind; [apply preserves_daily_agg | intros daily_s1 _].
  eapply preserves_bind; [apply preserves_cenario2 | intros s2 _].
  eapply preserves_bind; [apply preserves_getitem | intros e2 _].
  eapply preserves_bind; [apply preserves_daily_agg | intros daily_s2 _].
  now apply preserves_ret.
Qed.
End Preservation.

(* ================================================================== *)
(** * Flag coercion *)

Lemma sequence_all_some {A} (P : A -> Prop) (l : list (option A)) :
  Forall (fun x => exists q, x = Some q /\ P q) l ->
  exists l', sequence l = Some l' /\ Forall P l' /\ length l' = length l.
Proof.
  induction 1 as [|x t [q [-> Hq]] _ [l' [E [Hall Hlen]]]]; simpl.
  - exists []. repeat split. constructor.
  - rewrite E. exists (q :: l'). repeat split.
    + now constructor.
    + simpl. now rewrite Hlen.
Qed.

Lemma trunc_zero_one (q : Q) :
  (q == 0 \/ q == 1)%Q -> trunc q = 0 \/ trunc q = 1.
Proof.
  unfold trunc, Qeq. destruct q as [n d]; simpl.
  intros [H | H].
  - left. assert (n = 0) by lia. subst n. apply Z.quot_0_l. discriminate.
  - right. assert (n = Zpos d) by lia. subst n. apply Z.quot_same. discriminate.
Qed.

Lemma astype_int_zero_one (c : RawColumn) :
  raw_zero_one c ->
  exists l, astype_int c = Ok l /\ zero_one l /\ length l = raw_length c.
Proof.
  destruct c as [l | l | l]; simpl; intros H.
  - exists (map (fun b : bool => if b then 1 else 0) l). repeat split.
    + apply Forall_forall. intros v Hv. apply in_map_iff in Hv.
      destruct Hv as [[|] [<- _]]; auto.
    + apply length_map.
  - exists l. repeat split. exact H.
  - destruct (sequence_all_some _ _ H) as [l' [E [Hall Hlen]]].
    rewrite E. exists (map trunc l'). repeat split.
    + apply Forall_forall. intros v Hv. apply in_map_iff in Hv.
      destruct Hv as [q [<- Hq]]. rewrite Forall_forall in Hall.
      now apply trunc_zero_one, Hall.
    + now rewrite length_map.
Qed.

Lemma coerce_flag_zero_one (c : option RawColumn) :
  flag_zero_one_if_present c ->
  exists out, coerce_flag c = Ok out /\ flag_coerced c out.
Proof.
  destruct c as [c|]; simpl; intros H.
  - destruct (astype_int_zero_one c H) as [l [E Hl]].
    rewrite E. exists (Some l). split; [reflexivity | now exists l].
  - now exists None.
Qed.

(** Integers pass through [astype(int)] as they are. *)
Lemma coerce_flag_int (l : list Z) :
  coerce_flag (Some (IntColumn l)) = Ok (Some l).
Proof. reflexivity. Qed.

(** A NaN among the cells makes the cast raise. *)
Lemma coerce_flag_nan (l l' : list (option Q)) :
  coerce_flag (Some (FloatColumn (l ++ None :: l'))) = Raise ValueError.
Proof.
  unfold coerce_flag, astype_int.
  assert (E : sequence (l ++ None :: l') = None).
  { induction l as [|[q|] t IH]; simpl; [reflexivity | now rewrite IH | reflexivity]. }
  now rewrite E.
Qed.

(* ================================================================== *)
(** * The percentage guard *)

Lemma pct_defined (econ total_base : Q) :
  exists v, pct econ total_base = Some v.
Proof.
  unfold pct, truediv. destruct (Qlt_le_dec 0 total_base) as [Hlt|_]; [|eauto].
  destruct (Qeq_bool total_base 0) eqn:E; [|eauto].
  apply Qeq_bool_eq in E. rewrite E in Hlt. discriminate.
Qed.

Lemma all_zero_total (rs : list Reading.t) :
  Forall (fun r => (Reading.energy_kWh r == 0)%Q) rs ->
  (Series.sum (map Reading.energy_kWh rs) == 0)%Q.
Proof.
  induction 1 as [|r t Hr _ IH]; cbn [map]; [reflexivity|].
  rewrite sum_cons, Hr, IH. reflexivity.
Qed.

(* ================================================================== *)
(** * Claims *)

(** C1 -- Scenario 1, per-day rule.  On a frame holding the readings [rs],
    lines 75-94 produce a frame whose column [energy_s1_kWh] has one cell
    per reading and, for every date of the input: if no reading of that
    date has [on_off = 1], every reading of the date keeps its baseline
    energy; otherwise, with [last_time] the last instant of the date with
    [on_off = 1] and [cutoff = last_time - 1 hour], a reading of the date
    has energy 0 when [on_off = 1] and [cutoff < timestamp <= last_time],
    and its baseline energy in every other case. *)
Theorem scenario1_per_day_rule (h : heap) (base : ref) (rs : list Reading.t) :
  nth_error h base = Some (frame_of rs) ->
  exists col : list Q,
    yields_column (cenario1 base) h energy_s1_kWh col
    /\ scenario1_rule rs col.
Proof.
  intros Hbase. exists (map (s1_energy rs) rs). split.
  - exists (length h), (h ++ [set_energy_s1_kWh (frame_of rs) (map (s1_energy rs) rs)]),
           (set_energy_s1_kWh (frame_of rs) (map (s1_energy rs) rs)).
    split; [now apply cenario1_run|].
    split; [apply nth_error_snoc | reflexivity].
  - split; [apply length_map|].
    intros day _. split.
    + intros Hoff i r Hi Hd.
      rewrite (map_nth_error _ _ _ Hi). f_equal.
      apply s1_energy_off_day, Hoff; [eapply nth_error_In; eassumption | exact Hd].
    + intros Hon. destruct (last_on_exists _ _ Hon) as [last_time Hl].
      exists last_time. split; [exact Hl|].
      intros cutoff i r Hi Hd. subst day cutoff.
      rewrite (map_nth_error _ _ _ Hi). f_equal.
      now apply s1_energy_on_day.
Qed.

(** C2 -- Scenario 2 rule.  On a frame holding the readings [rs], lines
    111-115 give every reading the energy 0 when [is_business_hours = 0] and
    its baseline energy when [is_business_hours = 1], whatever its [on_off];
    so the total scenario-2 energy is the baseline energy summed over the
    readings with [is_business_hours = 1] (the flags being 0/1, as the data
    model has them), and the total scenario-2 savings is the baseline
    energy summed over the readings with [is_business_hours = 0]. *)
Theorem scenario2_business_hours_rule
        (h : heap) (base : ref) (rs : list Reading.t) :
  nth_error h base = Some (frame_of rs) ->
  (exists col : list Q,
      yields_column (cenario2 base) h energy_s2_kWh col
      /\ scenario2_rule rs col)
  /\ exists st : ScenarioStats,
      fst (compute_scenarios base h) = Ok st
      /\ (binary_flags rs ->
          (s2_total_kWh st == base_energy_where_bh rs 1)%Q)
      /\ (s2_economia_kWh st == base_energy_where_bh rs 0)%Q.
Proof.
  intros Hbase. split.
  - exists (map s2_energy rs). split.
    + exists (length h), (h ++ [set_energy_s2_kWh (frame_of rs) (map s2_energy rs)]),
             (set_energy_s2_kWh (frame_of rs) (map s2_energy rs)).
      split; [now apply cenario2_run|].
      split; [apply nth_error_snoc | reflexivity].
    + apply Forall2_map_self. intros r _. unfold s2_energy.
      split; intros ->; reflexivity.
  - exists (stats_of rs). split; [now apply compute_scenarios_returns|].
    unfold stats_of, base_energy_where_bh; cbn [s2_total_kWh s2_economia_kWh].
    split.
    + intros Hbin. unfold s2_energy. rewrite sum_kept.
      now rewrite filter_bh_binary.
    + unfold s2_energy. apply sum_zeroed.
Qed.

(** C3 -- Conservation.  For each of the two scenarios the reported total
    savings is the total baseline energy minus the total scenario energy,
    and the per-day savings of the daily aggregate add up to the reported
    total savings. *)
Theorem conservation (h : heap) (base : ref) (rs : list Reading.t) :
  nth_error h base = Some (frame_of rs) ->
  exists st : ScenarioStats,
    fst (compute_scenarios base h) = Ok st
    /\ conserved (total_base_kWh st) (s1_total_kWh st) (s1_economia_kWh st)
                 (s1_daily st)
    /\ conserved (total_base_kWh st) (s2_total_kWh st) (s2_economia_kWh st)
                 (s2_daily st).
Proof.
  intros Hbase. exists (stats_of rs).
  split; [now apply compute_scenarios_returns|].
  unfold conserved, stats_of; cbn.
  repeat split; try reflexivity; apply daily_savings_total.
Qed.

(** C4 -- Monotonic non-negativity.  When every reading has a
    non-negative baseline energy, the scenario energy of every reading lies
    in [0, baseline energy of the reading] for both scenarios, and every
    day of both daily aggregates has savings >= 0. *)
Theorem monotonic_non_negativity (h : heap) (base : ref) (rs : list Reading.t) :
  nth_error h base = Some (frame_of rs) ->
  Forall (fun r => (0 <= Reading.energy_kWh r)%Q) rs ->
  (exists col1 : list Q,
      yields_column (cenario1 base) h energy_s1_kWh col1
      /\ within_baseline rs col1)
  /\ (exists col2 : list Q,
         yields_column (cenario2 base) h energy_s2_kWh col2
         /\ within_baseline rs col2)
  /\ exists st : ScenarioStats,
      fst (compute_scenarios base h) = Ok st
      /\ Forall (fun row => (0 <= Daily.economia_kWh row)%Q) (s1_daily st)
      /\ Forall (fun row => (0 <= Daily.economia_kWh row)%Q) (s2_daily st).
Proof.
  intros Hbase Hpos. rewrite Forall_forall in Hpos. repeat split.
  - exists (map (s1_energy rs) rs). split.
    + exists (length h), (h ++ [set_energy_s1_kWh (frame_of rs) (map (s1_energy rs) rs)]),
             (set_energy_s1_kWh (frame_of rs) (map (s1_energy rs) rs)).
      split; [now apply cenario1_run|].
      split; [apply nth_error_snoc | reflexivity].
    + apply Forall2_map_self. intros r Hr. apply s1_energy_bounds, Hpos, Hr.
  - exists (map s2_energy rs). split.
    + exists (length h), (h ++ [set_energy_s2_kWh (frame_of rs) (map s2_energy rs)]),
             (set_energy_s2_kWh (frame_of rs) (map s2_energy rs)).
      split; [now apply cenario2_run|].
      split; [apply nth_error_snoc | reflexivity].
    + apply Forall2_map_self. intros r Hr. apply s2_energy_bounds, Hpos, Hr.
  - exists (stats_of rs). split; [now apply compute_scenarios_returns|].
    unfold stats_of; cbn [s1_daily s2_daily]. split.
    + apply daily_of_savings_nonneg. intros r Hr.
      apply s1_energy_bounds, Hpos, Hr.
    + apply daily_of_savings_nonneg. intros r Hr.
      apply s2_energy_bounds, Hpos, Hr.
Qed.

(** C6 -- Day completeness.  For each scenario the dates of the daily
    aggregate are exactly the distinct dates of the input readings; a date
    without any [on_off = 1] reading still has its row in the scenario-1
    aggregate, with savings 0. *)
Theorem day_completeness (h : heap) (base : ref) (rs : list Reading.t) :
  nth_error h base = Some (frame_of rs) ->
  exists st : ScenarioStats,
    fst (compute_scenarios base h) = Ok st
    /\ day_complete rs (s1_daily st)
    /\ day_complete rs (s2_daily st)
    /\ forall day,
         In day (map Reading.date rs) ->
         (forall r, In r rs -> Reading.date r = day -> Reading.on_off r <> 1) ->
         exists row, In row (s1_daily st)
                     /\ Daily.date row = day
                     /\ (Daily.economia_kWh row == 0)%Q.
Proof.
  intros Hbase. exists (stats_of rs).
  split; [now apply compute_scenarios_returns|].
  unfold stats_of; cbn [s1_daily s2_daily].
  split; [apply daily_of_complete|]. split; [apply daily_of_complete|].
  intros day Hday Hoff.
  exists (add_economia (day, day_sum rs Reading.energy_kWh day,
                        day_sum rs (s1_energy rs) day)).
  split; [|split].
  - unfold daily_of. apply in_map_iff. exists day. split; [reflexivity|].
    now apply in_unique_sorted.
  - reflexivity.
  - cbn [add_economia Daily.economia_kWh].
    rewrite (day_sum_s1_off_day _ _ Hoff). ring.
Qed.

(** C8 -- Zero-baseline guard.  When the total baseline energy is 0 the
    percentage reduction of both scenarios is defined and is 0: no division
    takes place. *)
Theorem zero_baseline_guard (st : ScenarioStats) :
  (total_base_kWh st == 0)%Q ->
  s1_pct st = Some 0%Q /\ s2_pct st = Some 0%Q.
Proof.
  intros H0. unfold s1_pct, s2_pct, pct.
  destruct (Qlt_le_dec 0 (total_base_kWh st)) as [Hlt | _].
  - rewrite H0 in Hlt. discriminate.
  - split; reflexivity.
Qed.

(** C10 -- Input immutability.  Whatever the heap and the input reference,
    and whether the call returns or raises, [compute_scenarios] leaves
    every frame that existed before the call as it was, the input frame
    among them: the heap after the call is the heap before it followed by
    the copies the call allocated. *)
Theorem input_immutability (h : heap) (base : ref) :
  (exists copies : heap, snd (compute_scenarios base h) = h ++ copies)
  /\ nth_error (snd (compute_scenarios base h)) base = nth_error h base.
Proof.
  destruct (preserves_compute_scenarios h base []) as [[copies Hs] _].
  rewrite app_nil_r in Hs. split; [now exists copies|].
  rewrite Hs. destruct (Nat.lt_ge_cases base (length h)) as [Hlt | Hge].
  - now apply nth_error_app1.
  - assert (Hn : nth_error h base = None) by now apply nth_error_None.
    unfold compute_scenarios, bind, df_copy in Hs |- *. rewrite Hn in Hs |- *.
    simpl in Hs. rewrite <- Hs. exact Hn.
Qed.

(** C7 (as amended) -- Empty input.  On an input without readings
    [compute_scenarios] does not raise: it returns totals 0, empty daily
    aggregates (no day group exists) and undefined (NaN) mean daily
    savings. *)
Theorem empty_input_statistics (h : heap) (base : ref) :
  nth_error h base = Some (frame_of []) ->
  fst (compute_scenarios base h) = Ok empty_stats.
Proof. intros Hbase. now rewrite (compute_scenarios_returns _ _ [] Hbase). Qed.

(** C7 (as stated) fails: the call on the empty frame is not a fault. *)
Lemma empty_input_does_not_raise :
  ~ exists e : exn, fst (compute_scenarios 0%nat [frame_of []]) = Raise e.
Proof. intros [e H]. vm_compute in H. discriminate. Qed.

(** What the cast does give: when the timestamp column is there and each
    flag column that is present holds booleans or the numbers 0 and 1, the
    Normalizer succeeds; a flag column that is present comes out as exact
    integers 0/1, one per cell, and a flag column that is absent is
    skipped, without error and without being derived. *)
Theorem normalizer_flag_coercion (raw : RawFrame) (ts : list Z) :
  raw_timestamp raw = Some ts ->
  flag_zero_one_if_present (raw_is_business_hours raw) ->
  flag_zero_one_if_present (raw_is_weekend raw) ->
  exists df : DataFrame,
    load_data raw = Ok df
    /\ flag_coerced (raw_is_business_hours raw) (is_business_hours df)
    /\ flag_coerced (raw_is_weekend raw) (is_weekend df).
Proof.
  intros Hts Hbh Hwe. unfold load_data. rewrite Hts.
  destruct (coerce_flag_zero_one _ Hbh) as [bh [Ebh Cbh]].
  destruct (coerce_flag_zero_one _ Hwe) as [we [Ewe Cwe]].
  rewrite Ebh, Ewe. eexists. split; [reflexivity|]. split; assumption.
Qed.

(** Hence the guarantee of 0/1 does not hold of every input. *)
Lemma flag_two_is_kept :
  ~ (forall (df : DataFrame) (c : list Z),
        load_data raw_flag_two = Ok df ->
        is_business_hours df = Some c -> zero_one c).
Proof.
  intros H. specialize (H _ [2] eq_refl eq_refl).
  inversion H as [|v l [Hv | Hv] _]; discriminate.
Qed.

(** An integer flag column passes through [load_data] cell by cell. *)
Lemma integer_flag_is_kept (raw : RawFrame) (l : list Z) (df : DataFrame) :
  raw_is_business_hours raw = Some (IntColumn l) ->
  load_data raw = Ok df ->
  is_business_hours df = Some l.
Proof.
  intros Hbh. unfold load_data. rewrite Hbh.
  destruct (raw_timestamp raw); [|discriminate].
  cbn [coerce_flag astype_int].
  destruct (coerce_flag (raw_is_weekend raw)); [|discriminate].
  now intros [= <-].
Qed.

(** C9 -- Flag coercion, at the failing input.  The line-48 comment has
    [load_data] guarantee integers 0/1, and so does the claim; on a CSV
    whose [is_business_hours] column holds the integer 2, [load_data]
    returns normally and the column of the frame it returns still holds 2,
    which is neither 0 nor 1: [astype(int)] casts, it does not clamp or
    reject.  (For the same CSV the absent [is_weekend] column is skipped
    without error, as the claim says.) *)
Theorem flag_two_survives_the_cast :
  load_data raw_flag_two
  = Ok {| nrows := 1;
          timestamp := Some [0];
          date := Some [0];
          energy_5min_real_kWh := Some [1%Q];
          on_off := Some [1];
          is_business_hours := Some [2];
          is_weekend := None;
          energy_s1_kWh := None;
          energy_s2_kWh := None |}
  /\ ~ zero_one [2].
Proof.
  split; [reflexivity|].
  intros H. inversion H as [|v l [Hv | Hv] _]; discriminate.
Qed.

(** C5 (as amended) -- Scenario 1 boundary.  For the synthetic day ("on"
    readings at 09:00, 09:05, ..., 17:00, 1 kWh each) the last "on" instant
    is 17:00 and the cutoff 16:00; the readings zeroed are those in
    (16:00, 17:00], which are 12 samples (16:05, ..., 17:00); the day's
    scenario-1 savings is 12 kWh. *)
Theorem synthetic_day_boundary :
  last_on synthetic_day day0 = Some (at_time 17 0)
  /\ at_time 17 0 - Timedelta_hours 1 = at_time 16 0
  /\ (exists col : list Q,
         yields_column (cenario1 0%nat) [frame_of synthetic_day]
                       energy_s1_kWh col
         /\ col = map (fun r =>
                         if (at_time 16 0 <? Reading.timestamp r)
                            && (Reading.timestamp r <=? at_time 17 0)
                         then 0%Q else 1%Q) synthetic_day
         /\ length (filter (fun x => Qeq_bool x 0) col) = 12%nat)
  /\ exists (st : ScenarioStats) (row : Daily.row),
      fst (compute_scenarios 0%nat [frame_of synthetic_day]) = Ok st
      /\ s1_daily st = [row]
      /\ Daily.date row = day0
      /\ (Daily.economia_kWh row == 12)%Q.
Proof.
  split; [vm_compute; reflexivity|]. split; [reflexivity|]. split.
  - exists (map (s1_energy synthetic_day) synthetic_day). split.
    + do 3 eexists. split;
        [exact (cenario1_run [frame_of synthetic_day] 0%nat synthetic_day eq_refl)|].
      split; reflexivity.
    + split; vm_compute; reflexivity.
  - exists (stats_of synthetic_day),
           (add_economia (day0, day_sum synthetic_day Reading.energy_kWh day0,
                          day_sum synthetic_day (s1_energy synthetic_day) day0)).
    split; [exact (compute_scenarios_returns [frame_of synthetic_day] 0%nat
                     synthetic_day eq_refl)|].
    repeat split; vm_compute; reflexivity.
Qed.

(** C5 (as stated) fails: the day's savings is not 13 kWh. *)
Lemma synthetic_day_savings_not_13 :
  ~ exists (st : ScenarioStats) (row : Daily.row),
      fst (compute_scenarios 0%nat [frame_of synthetic_day]) = Ok st
      /\ s1_daily st = [row]
      /\ (Daily.economia_kWh row == 13)%Q.
Proof.
  intros (st & row & Hst & Hrow & H13).
  rewrite (compute_scenarios_returns [frame_of synthetic_day] 0%nat
             synthetic_day eq_refl) in Hst.
  injection Hst as <-. vm_compute in Hrow. injection Hrow as <-.
  vm_compute in H13. discriminate.
Qed.

(* ================================================================== *)
(** * The claims at sample inputs *)

Lemma scenario1_per_day_rule_witness :
  nth_error [frame_of two_days] 0 = Some (frame_of two_days)
  /\ exists col : list Q,
      yields_column (cenario1 0%nat) [frame_of two_days] energy_s1_kWh col
      /\ scenario1_rule two_days col.
Proof.
  split; [reflexivity|].
  apply (scenario1_per_day_rule [frame_of two_days] 0%nat two_days).
  reflexivity.
Defined.

Lemma two_days_binary : binary_flags two_days.
Proof.
  unfold binary_flags, two_days.
  repeat (apply Forall_cons; [(left; reflexivity) || (right; reflexivity)|]).
  apply Forall_nil.
Defined.

Lemma two_days_non_negative :
  Forall (fun r => (0 <= Reading.energy_kWh r)%Q) two_days.
Proof.
  unfold two_days.
  repeat (apply Forall_cons; [vm_compute; discriminate|]).
  apply Forall_nil.
Defined.

Lemma scenario2_business_hours_rule_witness :
  binary_flags two_days
  /\ (exists col : list Q,
         yields_column (cenario2 0%nat) [frame_of two_days] energy_s2_kWh col
         /\ scenario2_rule two_days col)
  /\ exists st : ScenarioStats,
      fst (compute_scenarios 0%nat [frame_of two_days]) = Ok st
      /\ (s2_total_kWh st == base_energy_where_bh two_days 1)%Q
      /\ (s2_economia_kWh st == base_energy_where_bh two_days 0)%Q.
Proof.
  split; [exact two_days_binary|].
  destruct (scenario2_business_hours_rule [frame_of two_days] 0%nat two_days
              eq_refl) as [Hcol [st [Hst [Htotal Hsavings]]]].
  split; [exact Hcol|].
  exists st. split; [exact Hst|]. split; [|exact Hsavings].
  apply Htotal. exact two_days_binary.
Defined.

Lemma conservation_witness :
  exists st : ScenarioStats,
    fst (compute_scenarios 0%nat [frame_of two_days]) = Ok st
    /\ conserved (total_base_kWh st) (s1_total_kWh st) (s1_economia_kWh st)
                 (s1_daily st)
    /\ conserved (total_base_kWh st) (s2_total_kWh st) (s2_economia_kWh st)
                 (s2_daily st).
Proof.
  apply (conservation [frame_of two_days] 0%nat two_days). reflexivity.
Defined.

Lemma monotonic_non_negativity_witness :
  (exists col1 : list Q,
      yields_column (cenario1 0%nat) [frame_of two_days] energy_s1_kWh col1
      /\ within_baseline two_days col1)
  /\ (exists col2 : list Q,
         yields_column (cenario2 0%nat) [frame_of two_days] energy_s2_kWh col2
         /\ within_baseline two_days col2)
  /\ exists st : ScenarioStats,
      fst (compute_scenarios 0%nat [frame_of two_days]) = Ok st
      /\ Forall (fun row => (0 <= Daily.economia_kWh row)%Q) (s1_daily st)
      /\ Forall (fun row => (0 <= Daily.economia_kWh row)%Q) (s2_daily st).
Proof.
  apply (monotonic_non_negativity [frame_of two_days] 0%nat two_days).
  - reflexivity.
  - exact two_days_non_negative.
Defined.

Lemma day_completeness_witness :
  exists st : ScenarioStats,
    fst (compute_scenarios 0%nat [frame_of two_days]) = Ok st
    /\ day_complete two_days (s1_daily st)
    /\ day_complete two_days (s2_daily st)
    /\ exists row, In row (s1_daily st)
                   /\ Daily.date row = 1
                   /\ (Daily.economia_kWh row == 0)%Q.
Proof.
  destruct (day_completeness [frame_of two_days] 0%nat two_days eq_refl)
    as [st [Hst [H1 [H2 Hoff]]]].
  exists st. split; [exact Hst|]. split; [exact H1|]. split; [exact H2|].
  apply Hoff.
  - simpl. do 4 right. left. reflexivity.
  - intros r Hr Hd Hon. simpl in Hr.
    repeat (destruct Hr as [Hr | Hr]; [subst r; discriminate|]).
    exact Hr.
Defined.

Lemma empty_input_statistics_witness :
  nth_error [frame_of []] 0 = Some (frame_of [])
  /\ fst (compute_scenarios 0%nat [frame_of []]) = Ok empty_stats.
Proof.
  split; [reflexivity|].
  apply (empty_input_statistics [frame_of []] 0%nat). reflexivity.
Defined.

Lemma zero_baseline_guard_witness :
  (total_base_kWh empty_stats == 0)%Q
  /\ s1_pct empty_stats = Some 0%Q /\ s2_pct empty_stats = Some 0%Q.
Proof.
  split; [reflexivity|]. apply (zero_baseline_guard empty_stats). reflexivity.
Defined.

Lemma normalizer_flag_coercion_witness :
  exists df : DataFrame,
    load_data raw_bool_flag = Ok df
    /\ flag_coerced (raw_is_business_hours raw_bool_flag) (is_business_hours df)
    /\ flag_coerced (raw_is_weekend raw_bool_flag) (is_weekend df).
Proof.
  apply (normalizer_flag_coercion raw_bool_flag [0; 300]).
  - reflexivity.
  - exact I.
  - exact I.
Defined.

(* ================================================================== *)
(** * Beyond the claims: the Normalizer feeding the scenario engine *)

Lemma load_data_csv_of (rs : list Reading.t) (with_bh with_we : bool) :
  load_data (csv_of rs with_bh with_we)
  = Ok (frame_with rs
          (if with_bh then Some (map Reading.is_business_hours rs) else None)
          (if with_we then Some (map Reading.is_weekend rs) else None)).
Proof.
  unfold load_data, csv_of, frame_with; cbn.
  assert (Hd : map dt_date (map (fun r => Reading.date r * 86400) rs)
               = map Reading.date rs).
  { rewrite map_map. apply map_ext. intros r. unfold dt_date.
    apply Z.div_mul. discriminate. }
  rewrite Hd. destruct with_bh, with_we; reflexivity.
Qed.

Section Scenario1RunWith.
Variable rs : list Reading.t.
Variables bh we : option (list Z).
Variable h0 : heap.

Let F := frame_with rs bh we.

Lemma early_shutoff_day_run_with (g : Reading.t -> Q) (k : Z) :
  early_shutoff_day (length h0)
    (k, positions_from 0 k (map Reading.date rs))
    (h0 ++ [set_energy_s1_kWh F (map g rs)])
  = (Ok tt,
     h0 ++ [set_energy_s1_kWh F
              (map (fun r => if early_off rs k r then 0%Q else g r) rs)]).
Proof.
  unfold early_shutoff_day.
  run_step. run_step. cbn [nrows set_energy_s1_kWh F frame_with].
  rewrite index_isin_map, eq_scalar_map, mask_and_map, any_map.
  unfold early_off, last_on, on_in_day.
  destruct (existsb _ rs) eqn:Eany; cbn [negb].
  - run_step. rewrite select_map.
    destruct (Series.max _) as [last_time|] eqn:Emax.
    + erewrite loc_setitem_snoc by reflexivity.
      rewrite gt_scalar_map, le_scalar_map, !mask_and_map, loc_assign_map.
      reflexivity.
    + reflexivity.
  - rewrite (existsb_filter_nil _ _ Eany). reflexivity.
Qed.

Lemma early_shutoff_loop_run_with (keys : list Z) (g : Reading.t -> Q) :
  for_each (map (fun k => (k, positions_from 0 k (map Reading.date rs))) keys)
           (early_shutoff_day (length h0))
           (h0 ++ [set_energy_s1_kWh F (map g rs)])
  = (Ok tt,
     h0 ++ [set_energy_s1_kWh F
              (map (fun r => if existsb (fun k => early_off rs k r) keys
                             then 0%Q else g r) rs)]).
Proof.
  revert g. induction keys as [|k t IH]; intros g; cbn [for_each map existsb].
  - reflexivity.
  - rewrite (bind_ok _ _ _ _ _ (early_shutoff_day_run_with g k)), IH.
    do 4 f_equal. apply map_ext. intros r.
    destruct (early_off rs k r), (existsb _ t); reflexivity.
Qed.
End Scenario1RunWith.

Lemma cenario1_run_with (h : heap) (base : ref) (rs : list Reading.t)
      (bh we : option (list Z)) :
  nth_error h base = Some (frame_with rs bh we) ->
  cenario1 base h
  = (Ok (length h),
     h ++ [set_energy_s1_kWh (frame_with rs bh we) (map (s1_energy rs) rs)]).
Proof.
  intros Hbase. unfold cenario1.
  run_step. run_step. run_step. run_step.
  unfold groupby_groups.
  rewrite (bind_ok _ _ _ _ _ (early_shutoff_loop_run_with rs bh we h _ _)).
  unfold ret. do 4 f_equal. apply map_ext_in. intros r Hr.
  unfold s1_energy. now rewrite existsb_early_off.
Qed.

Lemma bind_raise {A B} (m : M A) (k : A -> M B) (h h' : heap) (e : exn) :
  m h = (Raise e, h') -> bind m k h = (Raise e, h').
Proof. intros E. unfold bind. now rewrite E. Qed.

Lemma getitem_missing {A} (r : ref) (col : DataFrame -> option (list A))
      (name : string) (h : heap) (d : DataFrame) :
  nth_error h r = Some d -> col d = None ->
  getitem r col name h = (Raise (KeyError name), h).
Proof.
  intros E Ec. unfold getitem.
  rewrite (bind_ok _ _ _ _ _ (df_read_ok _ _ _ E)), Ec. reflexivity.
Qed.

Lemma cenario2_without_bh (h : heap) (base : ref) (rs : list Reading.t)
      (we : option (list Z)) :
  nth_error h base = Some (frame_with rs None we) ->
  fst (cenario2 base h) = Raise (KeyError "is_business_hours").
Proof.
  intros Hbase. unfold cenario2.
  run_step. run_step. run_step.
  erewrite bind_raise; [reflexivity|].
  eapply getitem_missing; [apply nth_error_snoc | reflexivity].
Qed.

Lemma compute_scenarios_without_bh (h : heap) (base0 : ref)
      (rs : list Reading.t) (we : option (list Z)) :
  nth_error h base0 = Some (frame_with rs None we) ->
  fst (compute_scenarios base0 h) = Raise (KeyError "is_business_hours").
Proof.
  intros Hbase. unfold compute_scenarios.
  run_step. run_step.
  rewrite (bind_ok _ _ _ _ _
             (cenario1_run_with _ _ rs None we (nth_error_snoc h _))).
  run_step.
  erewrite bind_ok
    by (eapply daily_agg_ok; [apply nth_error_snoc | reflexivity ..]).
  assert (Hb : nth_error ((h ++ [frame_with rs None we]) ++
              [set_energy_s1_kWh (frame_with rs None we)
                                 (map (s1_energy rs) rs)])
              (length h) = Some (frame_with rs None we)).
  { rewrite nth_error_app1 by (rewrite length_app; simpl; lia).
    apply nth_error_snoc. }
  pose proof (cenario2_without_bh _ _ rs we Hb) as E.
  unfold bind at 1.
  destruct (cenario2 _ _) as [[s2|e] h2]; simpl in E; [discriminate|].
  now injection E as ->.
Qed.

(** X3 -- A CSV without the business-hours column.  [load_data] accepts it
    (the column is skipped), but [compute_scenarios] on the frame it gives
    raises [KeyError("is_business_hours")] once scenario 1 is done; with
    both flag columns in the CSV the same pipeline returns statistics. *)
Theorem missing_business_hours_faults_downstream
        (rs : list Reading.t) (with_we : bool) :
  (exists df : DataFrame,
      load_data (csv_of rs false with_we) = Ok df
      /\ is_business_hours df = None
      /\ forall (h : heap) (base : ref),
           nth_error h base = Some df ->
           fst (compute_scenarios base h)
           = Raise (KeyError "is_business_hours"))
  /\ (exists df : DataFrame,
         load_data (csv_of rs true true) = Ok df
         /\ forall (h : heap) (base : ref),
              nth_error h base = Some df ->
              exists st, fst (compute_scenarios base h) = Ok st).
Proof.
  split.
  - eexists. split; [apply load_data_csv_of|]. split; [reflexivity|].
    intros h base Hbase. eapply compute_scenarios_without_bh, Hbase.
  - eexists. split; [apply load_data_csv_of|].
    intros h base Hbase. exists (stats_of rs).
    now apply compute_scenarios_returns.
Qed.

(* ================================================================== *)
(** * Beyond the claims: the scenario statistics *)

Lemma mean_spec (l : list Q) :
  l <> [] ->
  exists m, Series.mean l = Some m
            /\ (m * inject_Z (Z.of_nat (length l)) == Series.sum l)%Q.
Proof.
  destruct l as [|x t]; [congruence|]. intros _.
  eexists. split; [reflexivity|].
  field. intros H. unfold Qeq, inject_Z in H. cbn [Qnum Qden length] in H. lia.
Qed.

Lemma daily_of_length (rs : list Reading.t) (f : Reading.t -> Q) :
  length (daily_of rs f) = length (unique_sorted (map Reading.date rs)).
Proof. unfold daily_of. apply length_map. Qed.

Lemma unique_sorted_not_nil (rs : list Reading.t) :
  rs <> [] -> unique_sorted (map Reading.date rs) <> [].
Proof.
  destruct rs as [|r t]; [congruence|]. intros _ E.
  assert (Hin : In (Reading.date r) (unique_sorted (map Reading.date (r :: t))))
    by (apply in_unique_sorted; now left).
  rewrite E in Hin. destruct Hin.
Qed.

Lemma mean_daily_of (rs : list Reading.t) (f : Reading.t -> Q) :
  rs <> [] ->
  exists m,
    Series.mean (map Daily.economia_kWh (daily_of rs f)) = Some m
    /\ (m * inject_Z (Z.of_nat (length (unique_sorted (map Reading.date rs))))
        == Series.sum (map Reading.energy_kWh rs) - Series.sum (map f rs))%Q.
Proof.
  intros Hne.
  destruct (mean_spec (map Daily.economia_kWh (daily_of rs f))) as [m [E Hm]].
  { intros E. apply (unique_sorted_not_nil rs Hne).
    apply length_zero_iff_nil. rewrite <- (daily_of_length rs f).
    apply length_zero_iff_nil in E. now rewrite length_map in E. }
  exists m. split; [exact E|].
  rewrite length_map, daily_of_length in Hm.
  rewrite Hm. apply daily_savings_total.
Qed.

(** X4 -- Mean daily savings.  On an input with at least one reading the
    mean daily savings of both scenarios is defined, and multiplied by the
    number of distinct dates it gives the total savings: every day weighs
    the same, whatever its number of readings. *)
Theorem mean_daily_savings (h : heap) (base : ref) (rs : list Reading.t) :
  rs <> [] ->
  nth_error h base = Some (frame_of rs) ->
  let days := inject_Z (Z.of_nat (length (unique_sorted (map Reading.date rs)))) in
  exists (st : ScenarioStats) (m1 m2 : Q),
    fst (compute_scenarios base h) = Ok st
    /\ s1_economia_media_dia st = Some m1
    /\ s2_economia_media_dia st = Some m2
    /\ (m1 * days == s1_economia_kWh st)%Q
    /\ (m2 * days == s2_economia_kWh st)%Q.
Proof.
  intros Hne Hbase days.
  destruct (mean_daily_of rs (s1_energy rs) Hne) as [m1 [E1 H1]].
  destruct (mean_daily_of rs s2_energy Hne) as [m2 [E2 H2]].
  exists (stats_of rs), m1, m2.
  split; [now apply compute_scenarios_returns|].
  unfold stats_of; cbn. repeat split; assumption.
Qed.

Lemma sum_map_nonneg {A} (f : A -> Q) (l : list A) :
  (forall x, In x l -> (0 <= f x)%Q) -> (0 <= Series.sum (map f l))%Q.
Proof.
  induction l as [|a t IH]; intros H; cbn [map]; [apply Qle_refl|].
  rewrite sum_cons.
  assert (0 <= f a)%Q by (apply H; now left).
  assert (0 <= Series.sum (map f t))%Q by (apply IH; intros; apply H; now right).
  lra.
Qed.

Lemma pct_range (econ total_base : Q) :
  (0 <= econ)%Q -> (econ <= total_base)%Q ->
  exists p, pct econ total_base = Some p /\ (0 <= p)%Q /\ (p <= 100)%Q.
Proof.
  intros H0 Hle. unfold pct, truediv.
  destruct (Qlt_le_dec 0 total_base) as [Hpos|_].
  - destruct (Qeq_bool total_base 0) eqn:E.
    + apply Qeq_bool_eq in E. rewrite E in Hpos. discriminate.
    + eexists. split; [reflexivity|].
      assert (H1 : (0 <= econ / total_base)%Q)
        by (apply Qle_shift_div_l; [exact Hpos | lra]).
      assert (H2 : (econ / total_base <= 1)%Q)
        by (apply Qle_shift_div_r; [exact Hpos | lra]).
      split; lra.
  - exists 0%Q. repeat split; [apply Qle_refl | discriminate].
Qed.

(** X5 -- Percentage reduction.  When every reading has a non-negative
    baseline energy, the percentage reduction shown for each scenario is
    defined and lies between 0 and 100. *)
Theorem percentage_within_0_100 (h : heap) (base : ref) (rs : list Reading.t) :
  nth_error h base = Some (frame_of rs) ->
  Forall (fun r => (0 <= Reading.energy_kWh r)%Q) rs ->
  exists (st : ScenarioStats) (p1 p2 : Q),
    fst (compute_scenarios base h) = Ok st
    /\ s1_pct st = Some p1 /\ (0 <= p1)%Q /\ (p1 <= 100)%Q
    /\ s2_pct st = Some p2 /\ (0 <= p2)%Q /\ (p2 <= 100)%Q.
Proof.
  intros Hbase Hpos. rewrite Forall_forall in Hpos.
  assert (B1 : forall f : Reading.t -> Q,
             (forall r, In r rs -> (0 <= f r)%Q /\ (f r <= Reading.energy_kWh r)%Q) ->
             exists p, pct (Series.sum (map Reading.energy_kWh rs)
                            - Series.sum (map f rs))
                           (Series.sum (map Reading.energy_kWh rs)) = Some p
                       /\ (0 <= p)%Q /\ (p <= 100)%Q).
  { intros f Hf.
    assert (0 <= Series.sum (map f rs))%Q
      by (apply sum_map_nonneg; intros; now apply Hf).
    assert (Series.sum (map f rs) <= Series.sum (map Reading.energy_kWh rs))%Q
      by (apply sum_map_le; intros; now apply Hf).
    apply pct_range; lra. }
  destruct (B1 (s1_energy rs)) as [p1 [E1 [L1 U1]]].
  { intros r Hr. apply s1_energy_bounds, Hpos, Hr. }
  destruct (B1 s2_energy) as [p2 [E2 [L2 U2]]].
  { intros r Hr. apply s2_energy_bounds, Hpos, Hr. }
  exists (stats_of rs), p1, p2.
  split; [now apply compute_scenarios_returns|].
  unfold s1_pct, s2_pct, stats_of; cbn. repeat split; assumption.
Qed.

Lemma daily_of_base (rs : list Reading.t) (f : Reading.t -> Q) :
  map Daily.energy_base_kWh (daily_of rs f)
  = map (day_sum rs Reading.energy_kWh) (unique_sorted (map Reading.date rs)).
Proof. unfold daily_of. now rewrite map_map. Qed.

Lemma daily_of_scenario (rs : list Reading.t) (f : Reading.t -> Q) :
  map Daily.energy_scenario_kWh (daily_of rs f)
  = map (day_sum rs f) (unique_sorted (map Reading.date rs)).
Proof. unfold daily_of. now rewrite map_map. Qed.

(** X6 -- Shape of the daily aggregates.  The rows of a daily aggregate
    come in strictly increasing date order, and the two scenarios' daily
    aggregates list the same dates with the same baseline energy. *)
Theorem daily_aggregates_sorted_and_aligned
        (h : heap) (base : ref) (rs : list Reading.t) :
  nth_error h base = Some (frame_of rs) ->
  exists st : ScenarioStats,
    fst (compute_scenarios base h) = Ok st
    /\ StronglySorted Z.lt (map Daily.date (s1_daily st))
    /\ map Daily.date (s1_daily st) = map Daily.date (s2_daily st)
    /\ map Daily.energy_base_kWh (s1_daily st)
       = map Daily.energy_base_kWh (s2_daily st).
Proof.
  intros Hbase. exists (stats_of rs).
  split; [now apply compute_scenarios_returns|].
  unfold stats_of; cbn [s1_daily s2_daily].
  rewrite !daily_of_date, !daily_of_base.
  split; [apply unique_sorted_sorted|]. split; reflexivity.
Qed.

Lemma daily_sums_total (rs : list Reading.t) (f : Reading.t -> Q) :
  (Series.sum (map (day_sum rs f) (unique_sorted (map Reading.date rs)))
   == Series.sum (map f rs))%Q.
Proof.
  apply sum_day_sums; [apply unique_sorted_NoDup|].
  intros r Hr. apply in_unique_sorted, in_map, Hr.
Qed.

(** X7 -- Daily figures add up.  In both daily aggregates the baseline
    energies of the days add up to the total baseline energy and the
    scenario energies of the days add up to the scenario's total energy:
    no reading is lost or counted twice by the grouping. *)
Theorem daily_energies_add_up (h : heap) (base : ref) (rs : list Reading.t) :
  nth_error h base = Some (frame_of rs) ->
  exists st : ScenarioStats,
    fst (compute_scenarios base h) = Ok st
    /\ (Series.sum (map Daily.energy_base_kWh (s1_daily st))
        == total_base_kWh st)%Q
    /\ (Series.sum (map Daily.energy_scenario_kWh (s1_daily st))
        == s1_total_kWh st)%Q
    /\ (Series.sum (map Daily.energy_base_kWh (s2_daily st))
        == total_base_kWh st)%Q
    /\ (Series.sum (map Daily.energy_scenario_kWh (s2_daily st))
        == s2_total_kWh st)%Q.
Proof.
  intros Hbase. exists (stats_of rs).
  split; [now apply compute_scenarios_returns|].
  unfold stats_of;
    cbn [s1_daily s2_daily total_base_kWh s1_total_kWh s2_total_kWh].
  rewrite !daily_of_base, !daily_of_scenario.
  repeat split; apply daily_sums_total.
Qed.

(* ================================================================== *)
(** * Beyond the claims: scenario 1 on short days, and row order *)

Lemma day_sum_s1_short_day (rs : list Reading.t) (day last_time : Z) :
  last_on_reading rs day last_time ->
  (forall r, In r rs -> Reading.date r = day -> Reading.on_off r = 1 ->
             last_time - Timedelta_hours 1 < Reading.timestamp r) ->
  forall r, In r rs -> Reading.date r = day ->
            s1_energy rs r
            = if Reading.on_off r =? 1 then 0%Q else Reading.energy_kWh r.
Proof.
  intros Hl Hshort r Hr Hd. subst day.
  rewrite (s1_energy_on_day _ _ _ Hl).
  destruct (Z.eqb_spec (Reading.on_off r) 1) as [Hon|]; [|reflexivity].
  destruct Hl as [_ Hmax].
  specialize (Hshort r Hr eq_refl Hon). specialize (Hmax r Hr eq_refl Hon).
  cbn [andb].
  destruct (Z.ltb_spec (last_time - Timedelta_hours 1) (Reading.timestamp r));
    [|lia].
  destruct (Z.leb_spec (Reading.timestamp r) last_time); [reflexivity | lia].
Qed.

(** X8 -- A day whose "on" period is shorter than one hour.  When every
    "on" reading of a day lies less than one hour before the day's last
    "on" instant, scenario 1 zeroes every "on" reading of that day and
    leaves the others, and the day's savings is the baseline energy of its
    whole "on" period. *)
Theorem short_on_period_fully_zeroed
        (h : heap) (base : ref) (rs : list Reading.t) (day last_time : Z) :
  nth_error h base = Some (frame_of rs) ->
  last_on_reading rs day last_time ->
  (forall r, In r rs -> Reading.date r = day -> Reading.on_off r = 1 ->
             last_time - Timedelta_hours 1 < Reading.timestamp r) ->
  (exists col : list Q,
      yields_column (cenario1 base) h energy_s1_kWh col
      /\ forall i r, nth_error rs i = Some r -> Reading.date r = day ->
           nth_error col i
           = Some (if Reading.on_off r =? 1 then 0%Q else Reading.energy_kWh r))
  /\ exists (st : ScenarioStats) (row : Daily.row),
      fst (compute_scenarios base h) = Ok st
      /\ In row (s1_daily st)
      /\ Daily.date row = day
      /\ (Daily.economia_kWh row
          == Series.sum (map Reading.energy_kWh
                             (filter (on_in_day day) rs)))%Q.
Proof.
  intros Hbase Hl Hshort.
  pose proof (day_sum_s1_short_day rs day last_time Hl Hshort) as Hrow.
  split.
  - exists (map (s1_energy rs) rs). split.
    + exists (length h), (h ++ [set_energy_s1_kWh (frame_of rs) (map (s1_energy rs) rs)]),
             (set_energy_s1_kWh (frame_of rs) (map (s1_energy rs) rs)).
      split; [now apply cenario1_run|].
      split; [apply nth_error_snoc | reflexivity].
    + intros i r Hi Hd. rewrite (map_nth_error _ _ _ Hi). f_equal.
      apply Hrow; [eapply nth_error_In; eassumption | exact Hd].
  - exists (stats_of rs),
           (add_economia (day, day_sum rs Reading.energy_kWh day,
                          day_sum rs (s1_energy rs) day)).
    split; [now apply compute_scenarios_returns|].
    split; [|split; [reflexivity|]].
    + unfold stats_of, daily_of; cbn [s1_daily]. apply in_map_iff.
      exists day. split; [reflexivity|].
      apply in_unique_sorted. destruct Hl as [[r [Hr [Hd _]]] _].
      rewrite <- Hd. now apply in_map.
    + cbn [add_economia Daily.economia_kWh]. unfold day_sum.
      assert (E : map (s1_energy rs)
                      (filter (fun r => Reading.date r =? day) rs)
                  = map (fun r => if Reading.on_off r =? 1 then 0%Q
                                  else Reading.energy_kWh r)
                        (filter (fun r => Reading.date r =? day) rs)).
      { apply map_ext_in. intros r Hr. apply filter_In in Hr.
        destruct Hr as [Hr Hd]. apply Hrow; [exact Hr | now apply Z.eqb_eq]. }
      rewrite E, sum_zeroed. unfold on_in_day.
      assert (F : filter (fun r => Reading.on_off r =? 1)
                         (filter (fun r => Reading.date r =? day) rs)
                  = filter (fun r => (Reading.date r =? day)
                                     && (Reading.on_off r =? 1)) rs).
      { clear. induction rs as [|r t IH]; cbn [filter]; [reflexivity|].
        destruct (Reading.date r =? day); cbn [filter andb]; [|exact IH].
        destruct (Reading.on_off r =? 1); now rewrite IH. }
      rewrite F. reflexivity.
Qed.

Section RowOrder.
Local Open Scope Q_scope.

Lemma sum_perm {A} (f : A -> Q) (l l' : list A) :
  Permutation l l' -> Series.sum (map f l) == Series.sum (map f l').
Proof.
  induction 1 as [| x l l' _ IH | x y l | l l' l'' _ IH1 _ IH2]; cbn [map].
  - reflexivity.
  - rewrite !sum_cons, IH. reflexivity.
  - rewrite !sum_cons. ring.
  - now rewrite IH1.
Qed.

Lemma sum_filter_as_map {A} (p : A -> bool) (f : A -> Q) (l : list A) :
  Series.sum (map f (filter p l))
  == Series.sum (map (fun x => if p x then f x else 0) l).
Proof.
  induction l as [|a t IH]; cbn [map filter]; [reflexivity|].
  rewrite sum_cons. destruct (p a); cbn [map];
    [rewrite sum_cons|]; rewrite IH; ring.
Qed.

Lemma day_sum_perm (rs rs' : list Reading.t) (f : Reading.t -> Q) (k : Z) :
  Permutation rs rs' -> day_sum rs f k == day_sum rs' f k.
Proof.
  intros Hp. unfold day_sum. rewrite !sum_filter_as_map. now apply sum_perm.
Qed.
End RowOrder.

Lemma last_on_reading_ext (rs rs' : list Reading.t) (k t : Z) :
  (forall r, In r rs <-> In r rs') ->
  last_on_reading rs k t -> last_on_reading rs' k t.
Proof.
  intros Hin [[r [Hr H]] Hmax]. split.
  - exists r. split; [now apply Hin | exact H].
  - intros r' Hr'. apply Hmax. now apply Hin.
Qed.

Lemma last_on_ext (rs rs' : list Reading.t) (k : Z) :
  (forall r, In r rs <-> In r rs') -> last_on rs k = last_on rs' k.
Proof.
  intros Hin.
  destruct (last_on rs k) as [t|] eqn:E.
  - symmetry. apply last_on_some.
    eapply last_on_reading_ext; [exact Hin | now apply last_on_some].
  - destruct (last_on rs' k) as [t'|] eqn:E'; [|reflexivity].
    apply last_on_some in E'.
    assert (H : last_on_reading rs k t').
    { eapply last_on_reading_ext; [|exact E']. intros r. symmetry. apply Hin. }
    apply last_on_some in H. congruence.
Qed.

Lemma s1_energy_ext (rs rs' : list Reading.t) (r : Reading.t) :
  (forall x, In x rs <-> In x rs') -> s1_energy rs r = s1_energy rs' r.
Proof.
  intros Hin. unfold s1_energy, early_off.
  now rewrite (last_on_ext rs rs' _ Hin).
Qed.

Lemma sorted_ext (l l' : list Z) :
  StronglySorted Z.lt l -> StronglySorted Z.lt l' ->
  (forall x, In x l <-> In x l') -> l = l'.
Proof.
  intros Hs. revert l'.
  induction Hs as [|a t Hs IH Ha]; intros l' Hs' Hin.
  - destruct l' as [|b t']; [reflexivity|].
    exfalso. apply (Hin b). now left.
  - destruct Hs' as [|b t' Hs' Hb].
    + exfalso. apply (Hin a). now left.
    + rewrite Forall_forall in Ha, Hb.
      assert (a = b).
      { assert (Hab : In a (b :: t')) by (apply Hin; now left).
        assert (Hba : In b (a :: t)) by (apply Hin; now left).
        destruct Hab as [<- | Hab]; [reflexivity|].
        destruct Hba as [<- | Hba]; [reflexivity|].
        specialize (Ha _ Hba). specialize (Hb _ Hab). lia. }
      subst b. f_equal. apply IH; [exact Hs'|].
      intros x. split; intros Hx.
      * assert (Hx' : In x (a :: t')) by (apply Hin; now right).
        destruct Hx' as [<- | Hx']; [|exact Hx'].
        specialize (Ha _ Hx). lia.
      * assert (Hx' : In x (a :: t)) by (apply Hin; now right).
        destruct Hx' as [<- | Hx']; [|exact Hx'].
        specialize (Hb _ Hx). lia.
Qed.

Lemma unique_sorted_perm (rs rs' : list Reading.t) :
  Permutation rs rs' ->
  unique_sorted (map Reading.date rs) = unique_sorted (map Reading.date rs').
Proof.
  intros Hp. apply sorted_ext; try apply unique_sorted_sorted.
  intros x. rewrite !in_unique_sorted.
  split; apply Permutation_in; [|symmetry]; now apply Permutation_map.
Qed.

Lemma Forall2_map_same {A B} (R : B -> B -> Prop) (f g : A -> B) (l : list A) :
  (forall x, R (f x) (g x)) -> Forall2 R (map f l) (map g l).
Proof. intros H. induction l; cbn [map]; constructor; auto. Qed.

Lemma s1_total_perm (rs rs' : list Reading.t) :
  Permutation rs rs' ->
  (Series.sum (map (s1_energy rs) rs)
   == Series.sum (map (s1_energy rs') rs'))%Q.
Proof.
  intros Hp.
  rewrite (map_ext (s1_energy rs) (s1_energy rs')).
  - now apply sum_perm.
  - intros r. apply s1_energy_ext. intros x.
    split; apply Permutation_in; [|symmetry]; exact Hp.
Qed.

Lemma daily_of_perm (rs rs' : list Reading.t) (f f' : Reading.t -> Q) :
  Permutation rs rs' -> (forall r, f r = f' r) ->
  Forall2 (fun a b => Daily.date a = Daily.date b
                      /\ (Daily.energy_base_kWh a == Daily.energy_base_kWh b)%Q
                      /\ (Daily.energy_scenario_kWh a
                          == Daily.energy_scenario_kWh b)%Q
                      /\ (Daily.economia_kWh a == Daily.economia_kWh b)%Q)
          (daily_of rs f) (daily_of rs' f').
Proof.
  intros Hp Hf. unfold daily_of. rewrite <- (unique_sorted_perm _ _ Hp).
  apply Forall2_map_same. intros k. cbn.
  assert (E1 := day_sum_perm rs rs' Reading.energy_kWh k Hp).
  assert (E2 : (day_sum rs f k == day_sum rs' f' k)%Q).
  { rewrite (day_sum_perm rs rs' f k Hp). unfold day_sum.
    now rewrite (map_ext f f' Hf). }
  repeat split; try assumption. now rewrite E1, E2.
Qed.

(** X9 -- Row order is irrelevant.  Two inputs holding the same readings in
    different orders give the same totals and savings for both scenarios
    and the same daily aggregates (date by date, with equal baseline
    energy, scenario energy and savings). *)
Theorem row_order_irrelevant (h h' : heap) (base base' : ref)
        (rs rs' : list Reading.t) :
  Permutation rs rs' ->
  nth_error h base = Some (frame_of rs) ->
  nth_error h' base' = Some (frame_of rs') ->
  let same_day (a b : Daily.row) :=
    Daily.date a = Daily.date b
    /\ (Daily.energy_base_kWh a == Daily.energy_base_kWh b)%Q
    /\ (Daily.energy_scenario_kWh a == Daily.energy_scenario_kWh b)%Q
    /\ (Daily.economia_kWh a == Daily.economia_kWh b)%Q in
  exists st st' : ScenarioStats,
    fst (compute_scenarios base h) = Ok st
    /\ fst (compute_scenarios base' h') = Ok st'
    /\ (total_base_kWh st == total_base_kWh st')%Q
    /\ (s1_total_kWh st == s1_total_kWh st')%Q
    /\ (s1_economia_kWh st == s1_economia_kWh st')%Q
    /\ (s2_total_kWh st == s2_total_kWh st')%Q
    /\ (s2_economia_kWh st == s2_economia_kWh st')%Q
    /\ Forall2 same_day (s1_daily st) (s1_daily st')
    /\ Forall2 same_day (s2_daily st) (s2_daily st').
Proof.
  intros Hp Hbase Hbase' same_day.
  exists (stats_of rs), (stats_of rs').
  split; [now apply compute_scenarios_returns|].
  split; [now apply compute_scenarios_returns|].
  assert (E0 := sum_perm Reading.energy_kWh rs rs' Hp).
  assert (E1 := s1_total_perm rs rs' Hp).
  assert (E2 := sum_perm s2_energy rs rs' Hp).
  unfold stats_of; cbn.
  split; [exact E0|]. split; [exact E1|]. split; [now rewrite E0, E1|].
  split; [exact E2|]. split; [now rewrite E0, E2|].
  split.
  - apply daily_of_perm; [exact Hp|].
    intros r. apply s1_energy_ext. intros x.
    split; apply Permutation_in; [|symmetry]; exact Hp.
  - now apply daily_of_perm.
Qed.

(* ================================================================== *)
(** * Beyond the claims: the sidebar filters and the energy overview *)

Lemma select_seq_length {R} (p : R -> bool) (rs : list R) (start : nat) :
  length (Series.select (map p rs) (seq start (length rs)))
  = length (filter p rs).
Proof.
  revert start. induction rs as [|r t IH]; intros start; cbn; [reflexivity|].
  destruct (p r); cbn; now rewrite IH.
Qed.

Lemma filter_mask_frame_of (rs : list Reading.t) (start_date end_date : Z)
      (bvals wvals : list Z) :
  filter_mask (frame_of rs) start_date end_date bvals wvals
  = Ok (map (in_view start_date end_date bvals wvals) rs).
Proof.
  unfold filter_mask, frame_of, ge_scalar, isin, Series.le_scalar; cbn.
  now rewrite !map_map, !mask_and_map.
Qed.

Lemma getitem_mask_frame_of (rs : list Reading.t) (p : Reading.t -> bool) :
  getitem_mask (frame_of rs) (map p rs) = frame_of (filter p rs).
Proof.
  unfold getitem_mask, frame_of; cbn.
  now rewrite !select_map, select_seq_length.
Qed.

Lemma df_base_filt_frame_of (rs : list Reading.t) (start_date end_date : Z)
      (bvals wvals : list Z) :
  df_base_filt (frame_of rs) start_date end_date bvals wvals
  = Ok (frame_of (filter (in_view start_date end_date bvals wvals) rs)).
Proof.
  unfold df_base_filt.
  now rewrite filter_mask_frame_of, getitem_mask_frame_of.
Qed.

Lemma df_daily_frame_of (rs : list Reading.t) (power : list Q) :
  df_daily (frame_of rs) (Some power)
  = Ok (map (fun k =>
               {| DailyKpi.date := k;
                  DailyKpi.daily_energy_kWh := day_sum rs Reading.energy_kWh k;
                  DailyKpi.daily_avg_power :=
                    Series.mean
                      (Series.select
                         (Series.eq_scalar (map Reading.date rs) k) power);
                  DailyKpi.daily_cost :=
                    (day_sum rs Reading.energy_kWh k * TARIFA_KWH)%Q |})
            (unique_sorted (map Reading.date rs))).
Proof.
  unfold df_daily, frame_of, day_sum; cbn. f_equal.
  apply map_ext. intros k. now rewrite eq_scalar_map, select_map.
Qed.

Lemma energy_overview_frame_of (rs : list Reading.t)
      (power : option (list Q)) (date_range : date_input)
      (bm : business_mode) (wm : weekend_mode) (start_date end_date : Z) :
  unpack_date_range date_range = Ok (start_date, end_date) ->
  let keep := in_view start_date end_date (business_vals bm) (weekend_vals wm) in
  energy_overview (frame_of rs) power date_range bm wm
  = if df_empty (frame_of (filter keep rs)) then Ok None
    else
      match df_daily (frame_of (filter keep rs))
                     (option_map (Series.select (map keep rs)) power) with
      | Raise e => Raise e
      | Ok daily =>
          Ok (Some {| total_energy :=
                        Series.sum (map DailyKpi.daily_energy_kWh daily);
                      total_cost :=
                        Series.sum (map DailyKpi.daily_cost daily);
                      media_diaria :=
                        Series.mean (map DailyKpi.daily_energy_kWh daily) |})
      end.
Proof.
  intros Hdr keep. unfold energy_overview.
  rewrite Hdr, filter_mask_frame_of. fold keep.
  cbv zeta. now rewrite getitem_mask_frame_of.
Qed.

Lemma sum_map_scale {A} (f : A -> Q) (c : Q) (l : list A) :
  (Series.sum (map (fun x => f x * c) l) == Series.sum (map f l) * c)%Q.
Proof.
  induction l as [|a t IH]; cbn [map]; [cbn; ring|].
  rewrite !sum_cons, IH. ring.
Qed.

Lemma energy_overview_of_view (rs : list Reading.t) (power : list Q)
      (date_range : date_input)
      (bm : business_mode) (wm : weekend_mode) (start_date end_date : Z) :
  unpack_date_range date_range = Ok (start_date, end_date) ->
  let view := filter (in_view start_date end_date
                              (business_vals bm) (weekend_vals wm)) rs in
  view <> [] ->
  exists (ov : Overview) (m : Q),
    energy_overview (frame_of rs) (Some power) date_range bm wm = Ok (Some ov)
    /\ (total_energy ov == Series.sum (map Reading.energy_kWh view))%Q
    /\ (total_cost ov == total_energy ov * TARIFA_KWH)%Q
    /\ media_diaria ov = Some m
    /\ (m * inject_Z (Z.of_nat
                        (length (unique_sorted (map Reading.date view))))
        == total_energy ov)%Q.
Proof.
  intros Hdr view Hne.
  rewrite (energy_overview_frame_of rs (Some power) _ bm wm _ _ Hdr).
  fold view.
  assert (E : df_empty (frame_of view) = false)
    by (destruct view; [congruence | reflexivity]).
  rewrite E. cbn [option_map]. rewrite df_daily_frame_of. rewrite !map_map.
  cbn [DailyKpi.daily_energy_kWh DailyKpi.daily_cost].
  destruct (mean_spec (map (fun k => day_sum view Reading.energy_kWh k)
                           (unique_sorted (map Reading.date view))))
    as [m [Em Hm]].
  { intros E0. apply (unique_sorted_not_nil view Hne).
    now apply map_eq_nil in E0. }
  eexists. exists m. split; [reflexivity|]. cbn.
  split; [apply daily_sums_total|].
  split; [apply sum_map_scale|]. split; [exact Em|].
  now rewrite length_map in Hm.
Qed.

Lemma energy_overview_without_power (rs : list Reading.t)
      (date_range : date_input)
      (bm : business_mode) (wm : weekend_mode) (start_date end_date : Z) :
  unpack_date_range date_range = Ok (start_date, end_date) ->
  filter (in_view start_date end_date (business_vals bm) (weekend_vals wm)) rs
  <> [] ->
  energy_overview (frame_of rs) None date_range bm wm
  = Raise (KeyError "active_power_real").
Proof.
  intros Hdr Hne.
  rewrite (energy_overview_frame_of rs None _ bm wm _ _ Hdr).
  destruct (filter _ rs) as [|r t]; [congruence | reflexivity].
Qed.

Lemma energy_overview_empty_view (rs : list Reading.t)
      (power : option (list Q)) (date_range : date_input)
      (bm : business_mode) (wm : weekend_mode) (start_date end_date : Z) :
  unpack_date_range date_range = Ok (start_date, end_date) ->
  filter (in_view start_date end_date (business_vals bm) (weekend_vals wm)) rs
  = [] ->
  energy_overview (frame_of rs) power date_range bm wm = Ok None.
Proof.
  intros Hdr E.
  rewrite (energy_overview_frame_of rs power _ bm wm _ _ Hdr).
  now rewrite E.
Qed.

(** X10 -- The energy overview of a view.  Given a usable date range, the
    page stops with the warning exactly when no reading passes the
    filters, whether or not the frame has the column [active_power_real].
    When some reading is in view and the column is missing, the daily
    aggregation raises [KeyError("active_power_real")]; when the column is
    there, the total energy shown is the baseline energy of the readings
    in view, the total cost is that energy times the tariff (0.80), and the
    daily mean times the number of distinct dates in view is the total
    energy. *)
Theorem overview_metrics (rs : list Reading.t) (power : option (list Q))
        (date_range : date_input)
        (bm : business_mode) (wm : weekend_mode) (start_date end_date : Z) :
  unpack_date_range date_range = Ok (start_date, end_date) ->
  let view := filter (in_view start_date end_date
                              (business_vals bm) (weekend_vals wm)) rs in
  (view = [] <-> energy_overview (frame_of rs) power date_range bm wm = Ok None)
  /\ (view <> [] -> power = None ->
      energy_overview (frame_of rs) power date_range bm wm
      = Raise (KeyError "active_power_real"))
  /\ (view <> [] -> power <> None ->
      exists (ov : Overview) (m : Q),
        energy_overview (frame_of rs) power date_range bm wm = Ok (Some ov)
        /\ (total_energy ov == Series.sum (map Reading.energy_kWh view))%Q
        /\ (total_cost ov == total_energy ov * TARIFA_KWH)%Q
        /\ media_diaria ov = Some m
        /\ (m * inject_Z (Z.of_nat
                            (length (unique_sorted (map Reading.date view))))
            == total_energy ov)%Q).
Proof.
  intros Hdr view. split; [split|split].
  - intros E. now apply (energy_overview_empty_view rs power _ bm wm _ _ Hdr).
  - intros E. destruct view as [|r t] eqn:Ev; [reflexivity|]. exfalso.
    destruct power as [p|].
    + destruct (energy_overview_of_view rs p _ bm wm _ _ Hdr)
        as [ov [m [E' _]]].
      { fold view. rewrite Ev. discriminate. }
      congruence.
    + rewrite (energy_overview_without_power rs _ bm wm _ _ Hdr) in E.
      * discriminate.
      * fold view. rewrite Ev. discriminate.
  - intros Hne ->. now apply (energy_overview_without_power rs _ bm wm _ _ Hdr).
  - intros Hne Hp. destruct power as [p|]; [|congruence].
    now apply (energy_overview_of_view rs p _ bm wm _ _ Hdr).
Qed.

Lemma fold_min_le (t : list Z) (x : Z) :
  forall y, In y (x :: t) -> fold_left Z.min t x <= y.
Proof.
  revert x. induction t as [|z t IH]; intros x y Hy; simpl.
  - destruct Hy as [<- | []]. lia.
  - assert (Hm : fold_left Z.min t (Z.min x z) <= Z.min x z)
      by (apply IH; now left).
    destruct Hy as [<- | [<- | Hy]]; [lia | lia |].
    apply IH. now right.
Qed.

Lemma series_min_le (c : list Z) (m : Z) :
  series_min c = Some m -> forall y, In y c -> m <= y.
Proof.
  destruct c as [|x t]; simpl; [discriminate|].
  intros [= <-]. apply fold_min_le.
Qed.

Lemma filter_all {A} (p : A -> bool) (l : list A) :
  (forall x, In x l -> p x = true) -> filter p l = l.
Proof.
  induction l as [|a t IH]; intros H; cbn [filter]; [reflexivity|].
  rewrite (H a) by now left. f_equal. apply IH. intros; apply H; now right.
Qed.

Lemma default_view_keeps_all (rs : list Reading.t) (min_date max_date : Z) :
  series_min (map Reading.date rs) = Some min_date ->
  Series.max (map Reading.date rs) = Some max_date ->
  all_flags_binary rs ->
  filter (in_view min_date max_date (business_vals Todos)
                  (weekend_vals TodosOsDias)) rs = rs.
Proof.
  intros Hmin Hmax Hbin. apply filter_all. intros r Hr.
  unfold all_flags_binary in Hbin. rewrite Forall_forall in Hbin.
  pose proof (series_min_le _ _ Hmin (Reading.date r) (in_map _ _ _ Hr)).
  destruct (series_max_spec _ _ Hmax) as [_ Hle].
  specialize (Hle (Reading.date r) (in_map _ _ _ Hr)).
  unfold in_view. cbn [business_vals weekend_vals existsb].
  destruct (Hbin r Hr) as [[-> | ->] [-> | ->]]; cbn;
    rewrite !andb_true_r, andb_true_iff; split;
    (apply Z.leb_le; assumption).
Qed.

(** X11 -- The default view.  With the date range the page proposes (first
    to last date of the data), both radio buttons on "Todos" and both
    flags 0/1 on every reading, the filtered frame is the whole frame; and,
    the frame having its [active_power_real] column, the total energy of
    the overview is the total baseline energy that [compute_scenarios]
    reports. *)
Theorem default_view_is_whole_dataset
        (h : heap) (base : ref) (rs : list Reading.t) (power : list Q)
        (min_date max_date : Z) :
  series_min (map Reading.date rs) = Some min_date ->
  Series.max (map Reading.date rs) = Some max_date ->
  all_flags_binary rs ->
  nth_error h base = Some (frame_of rs) ->
  df_base_filt (frame_of rs) min_date max_date
               (business_vals Todos) (weekend_vals TodosOsDias)
  = Ok (frame_of rs)
  /\ exists (ov : Overview) (st : ScenarioStats),
      energy_overview (frame_of rs) (Some power)
                      (DateTuple [min_date; max_date])
                      Todos TodosOsDias = Ok (Some ov)
      /\ fst (compute_scenarios base h) = Ok st
      /\ (total_energy ov == total_base_kWh st)%Q.
Proof.
  intros Hmin Hmax Hbin Hbase.
  pose proof (default_view_keeps_all rs _ _ Hmin Hmax Hbin) as Hall.
  split; [now rewrite df_base_filt_frame_of, Hall|].
  assert (Hne : rs <> []) by (intros ->; discriminate).
  pose proof (energy_overview_of_view rs power (DateTuple [min_date; max_date])
                Todos TodosOsDias min_date max_date eq_refl) as Hov.
  cbv zeta in Hov. rewrite Hall in Hov.
  destruct (Hov Hne) as [ov [m [Eov [Htot _]]]].
  exists ov, (stats_of rs). split; [exact Eov|].
  split; [now apply compute_scenarios_returns|]. exact Htot.
Qed.

Section Split.
Local Open Scope Q_scope.
Context {A : Type}.
Variables (pq p q : A -> bool) (f : A -> Q).
Hypothesis Hor : forall x, pq x = p x || q x.
Hypothesis Hdisj : forall x, p x && q x = false.

Lemma filter_split_sum (l : list A) :
  Series.sum (map f (filter pq l))
  == Series.sum (map f (filter p l)) + Series.sum (map f (filter q l)).
Proof.
  induction l as [|a t IH]; cbn [filter map]; [cbn; ring|].
  rewrite (Hor a). pose proof (Hdisj a) as Hd.
  destruct (p a), (q a); try discriminate; cbn [orb map];
    rewrite ?sum_cons, IH; ring.
Qed.

Lemma filter_split_length (l : list A) :
  length (filter pq l) = (length (filter p l) + length (filter q l))%nat.
Proof.
  induction l as [|a t IH]; cbn [filter]; [reflexivity|].
  rewrite (Hor a). pose proof (Hdisj a) as Hd.
  destruct (p a), (q a); try discriminate; cbn [orb length]; lia.
Qed.
End Split.

Lemma in_view_business_or (s e : Z) (wvals : list Z) (r : Reading.t) :
  in_view s e (business_vals Todos) wvals r
  = in_view s e (business_vals SoComercial) wvals r
    || in_view s e (business_vals SoForaDoComercial) wvals r.
Proof.
  unfold in_view. cbn [business_vals existsb].
  destruct (s <=? Reading.date r), (Reading.date r <=? e),
    (Reading.is_business_hours r =? 0), (Reading.is_business_hours r =? 1),
    (existsb _ wvals); reflexivity.
Qed.

Lemma in_view_business_disjoint (s e : Z) (wvals : list Z) (r : Reading.t) :
  in_view s e (business_vals SoComercial) wvals r
  && in_view s e (business_vals SoForaDoComercial) wvals r = false.
Proof.
  unfold in_view. cbn [business_vals existsb].
  destruct (Z.eqb_spec (Reading.is_business_hours r) 0) as [E0|],
           (Z.eqb_spec (Reading.is_business_hours r) 1) as [E1|];
    try (rewrite E0 in E1; discriminate);
    destruct (s <=? Reading.date r), (Reading.date r <=? e),
      (existsb _ wvals); reflexivity.
Qed.

(** X12 -- The business-hours filter splits the view.  For any date range
    and weekend choice, the rows kept under "Todos" are those kept under
    "So comercial" plus those kept under "So fora do comercial": the row
    counts add up and so do the baseline energies.  (A reading whose flag
    is neither 0 nor 1 is in none of the three.) *)
Theorem business_filter_splits_view
        (rs : list Reading.t) (start_date end_date : Z) (wm : weekend_mode) :
  exists (all com off : DataFrame) (e_all e_com e_off : list Q),
    df_base_filt (frame_of rs) start_date end_date
                 (business_vals Todos) (weekend_vals wm) = Ok all
    /\ df_base_filt (frame_of rs) start_date end_date
                    (business_vals SoComercial) (weekend_vals wm) = Ok com
    /\ df_base_filt (frame_of rs) start_date end_date
                    (business_vals SoForaDoComercial) (weekend_vals wm) = Ok off
    /\ nrows all = (nrows com + nrows off)%nat
    /\ energy_5min_real_kWh all = Some e_all
    /\ energy_5min_real_kWh com = Some e_com
    /\ energy_5min_real_kWh off = Some e_off
    /\ (Series.sum e_all == Series.sum e_com + Series.sum e_off)%Q
    /\ forall r, In r rs ->
         Reading.is_business_hours r <> 0 ->
         Reading.is_business_hours r <> 1 ->
         in_view start_date end_date (business_vals Todos) (weekend_vals wm) r
         = false.
Proof.
  do 6 eexists.
  split; [apply df_base_filt_frame_of|].
  split; [apply df_base_filt_frame_of|].
  split; [apply df_base_filt_frame_of|].
  split; [|split; [reflexivity|split; [reflexivity|split; [reflexivity|split]]]].
  - cbn [nrows frame_of]. apply filter_split_length.
    + apply in_view_business_or.
    + apply in_view_business_disjoint.
  - apply filter_split_sum.
    + apply in_view_business_or.
    + apply in_view_business_disjoint.
  - intros r _ H0 H1. unfold in_view. cbn [business_vals existsb].
    destruct (Z.eqb_spec (Reading.is_business_hours r) 0); [contradiction|].
    destruct (Z.eqb_spec (Reading.is_business_hours r) 1); [contradiction|].
    cbn. now rewrite andb_false_r.
Qed.

Lemma cenario2_run_with (h : heap) (base : ref) (rs : list Reading.t)
      (we : option (list Z)) :
  nth_error h base
  = Some (frame_with rs (Some (map Reading.is_business_hours rs)) we) ->
  cenario2 base h
  = (Ok (length h),
     h ++ [set_energy_s2_kWh
             (frame_with rs (Some (map Reading.is_business_hours rs)) we)
             (map s2_energy rs)]).
Proof.
  intros Hbase. unfold cenario2.
  run_step. run_step. run_step. run_step.
  erewrite bind_ok by (eapply loc_setitem_snoc; reflexivity).
  cbn [is_business_hours set_energy_s2_kWh frame_with].
  rewrite eq_scalar_map, loc_assign_map. reflexivity.
Qed.

Lemma compute_scenarios_returns_with (h : heap) (base0 : ref)
      (rs : list Reading.t) (we : option (list Z)) :
  nth_error h base0
  = Some (frame_with rs (Some (map Reading.is_business_hours rs)) we) ->
  fst (compute_scenarios base0 h) = Ok (stats_of rs).
Proof.
  intros Hbase. unfold compute_scenarios.
  run_step. run_step.
  rewrite (bind_ok _ _ _ _ _
             (cenario1_run_with _ _ rs _ we (nth_error_snoc h _))).
  run_step.
  erewrite bind_ok
    by (eapply daily_agg_ok; [apply nth_error_snoc | reflexivity ..]).
  assert (Hb : nth_error
                 ((h ++ [frame_with rs (Some (map Reading.is_business_hours rs)) we])
                  ++ [set_energy_s1_kWh
                        (frame_with rs (Some (map Reading.is_business_hours rs)) we)
                        (map (s1_energy rs) rs)])
                 (length h)
               = Some (frame_with rs (Some (map Reading.is_business_hours rs)) we)).
  { rewrite nth_error_app1 by (rewrite length_app; simpl; lia).
    apply nth_error_snoc. }
  rewrite (bind_ok _ _ _ _ _ (cenario2_run_with _ _ rs we Hb)).
  run_step.
  erewrite bind_ok
    by (eapply daily_agg_ok; [apply nth_error_snoc | reflexivity ..]).
  unfold ret.
  cbn [set_energy_s1_kWh set_energy_s2_kWh frame_with energy_5min_real_kWh
       energy_s1_kWh energy_s2_kWh date fst].
  rewrite !groupby_agg_sum_map. reflexivity.
Qed.

(** X13 -- A CSV without the weekend column.  [load_data] accepts it and
    [compute_scenarios], which never reads that column, returns its
    statistics; the page then fails in the sidebar filter, which raises
    [KeyError("is_weekend")] for every usable date range and every choice
    of the radio buttons (with or without the column [active_power_real],
    which is read later). *)
Theorem missing_weekend_faults_in_filter (rs : list Reading.t) :
  exists df : DataFrame,
    load_data (csv_of rs true false) = Ok df
    /\ is_weekend df = None
    /\ (forall (h : heap) (base : ref),
           nth_error h base = Some df ->
           exists st, fst (compute_scenarios base h) = Ok st)
    /\ forall power date_range bm wm start_date end_date,
         unpack_date_range date_range = Ok (start_date, end_date) ->
         energy_overview df power date_range bm wm
         = Raise (KeyError "is_weekend").
Proof.
  eexists. split; [apply load_data_csv_of|]. split; [reflexivity|]. split.
  - intros h base Hbase. exists (stats_of rs).
    now apply compute_scenarios_returns_with in Hbase.
  - intros power date_range bm wm s e Hdr. unfold energy_overview.
    rewrite Hdr. reflexivity.
Qed.

(* ================================================================== *)
(** * The further properties at sample inputs *)

Lemma missing_business_hours_faults_downstream_witness :
  exists df : DataFrame,
    load_data (csv_of two_days false true) = Ok df
    /\ fst (compute_scenarios 0%nat [df]) = Raise (KeyError "is_business_hours").
Proof.
  destruct (missing_business_hours_faults_downstream two_days true)
    as [[df [Hload [_ Hfault]]] _].
  exists df. split; [exact Hload|]. apply Hfault. reflexivity.
Defined.

Lemma two_days_not_empty : two_days <> [].
Proof. discriminate. Defined.

Lemma mean_daily_savings_witness :
  exists (st : ScenarioStats) (m1 m2 : Q),
    fst (compute_scenarios 0%nat [frame_of two_days]) = Ok st
    /\ s1_economia_media_dia st = Some m1
    /\ s2_economia_media_dia st = Some m2
    /\ (m1 * 2 == s1_economia_kWh st)%Q
    /\ (m2 * 2 == s2_economia_kWh st)%Q.
Proof.
  apply (mean_daily_savings [frame_of two_days] 0%nat two_days).
  - exact two_days_not_empty.
  - reflexivity.
Defined.

Lemma percentage_within_0_100_witness :
  exists (st : ScenarioStats) (p1 p2 : Q),
    fst (compute_scenarios 0%nat [frame_of two_days]) = Ok st
    /\ s1_pct st = Some p1 /\ (0 <= p1)%Q /\ (p1 <= 100)%Q
    /\ s2_pct st = Some p2 /\ (0 <= p2)%Q /\ (p2 <= 100)%Q.
Proof.
  apply (percentage_within_0_100 [frame_of two_days] 0%nat two_days).
  - reflexivity.
  - exact two_days_non_negative.
Defined.

Lemma daily_aggregates_sorted_and_aligned_witness :
  exists st : ScenarioStats,
    fst (compute_scenarios 0%nat [frame_of two_days]) = Ok st
    /\ StronglySorted Z.lt (map Daily.date (s1_daily st))
    /\ map Daily.date (s1_daily st) = map Daily.date (s2_daily st)
    /\ map Daily.energy_base_kWh (s1_daily st)
       = map Daily.energy_base_kWh (s2_daily st).
Proof.
  apply (daily_aggregates_sorted_and_aligned [frame_of two_days] 0%nat two_days).
  reflexivity.
Defined.

Lemma daily_energies_add_up_witness :
  exists st : ScenarioStats,
    fst (compute_scenarios 0%nat [frame_of two_days]) = Ok st
    /\ (Series.sum (map Daily.energy_base_kWh (s1_daily st))
        == total_base_kWh st)%Q
    /\ (Series.sum (map Daily.energy_scenario_kWh (s1_daily st))
        == s1_total_kWh st)%Q
    /\ (Series.sum (map Daily.energy_base_kWh (s2_daily st))
        == total_base_kWh st)%Q
    /\ (Series.sum (map Daily.energy_scenario_kWh (s2_daily st))
        == s2_total_kWh st)%Q.
Proof.
  apply (daily_energies_add_up [frame_of two_days] 0%nat two_days).
  reflexivity.
Defined.

Lemma short_day_last_on : last_on_reading short_day 0 300.
Proof. apply last_on_some. reflexivity. Defined.

Lemma short_day_within_hour :
  forall r, In r short_day -> Reading.date r = 0 -> Reading.on_off r = 1 ->
            300 - Timedelta_hours 1 < Reading.timestamp r.
Proof.
  intros r Hr _ _. simpl in Hr.
  repeat (destruct Hr as [Hr | Hr]; [subst r; reflexivity|]).
  destruct Hr.
Defined.

Lemma short_on_period_fully_zeroed_witness :
  (exists col : list Q,
      yields_column (cenario1 0%nat) [frame_of short_day] energy_s1_kWh col
      /\ forall i r, nth_error short_day i = Some r -> Reading.date r = 0 ->
           nth_error col i
           = Some (if Reading.on_off r =? 1 then 0%Q else Reading.energy_kWh r))
  /\ exists (st : ScenarioStats) (row : Daily.row),
      fst (compute_scenarios 0%nat [frame_of short_day]) = Ok st
      /\ In row (s1_daily st)
      /\ Daily.date row = 0
      /\ (Daily.economia_kWh row
          == Series.sum (map Reading.energy_kWh
                             (filter (on_in_day 0) short_day)))%Q.
Proof.
  apply (short_on_period_fully_zeroed [frame_of short_day] 0%nat short_day
                                      0 300).
  - reflexivity.
  - exact short_day_last_on.
  - exact short_day_within_hour.
Defined.

Lemma row_order_irrelevant_witness :
  exists st st' : ScenarioStats,
    fst (compute_scenarios 0%nat [frame_of two_days]) = Ok st
    /\ fst (compute_scenarios 0%nat [frame_of (rev two_days)]) = Ok st'
    /\ (total_base_kWh st == total_base_kWh st')%Q
    /\ (s1_total_kWh st == s1_total_kWh st')%Q
    /\ (s2_total_kWh st == s2_total_kWh st')%Q.
Proof.
  destruct (row_order_irrelevant [frame_of two_days] [frame_of (rev two_days)]
              0%nat 0%nat two_days (rev two_days)
              (Permutation_rev two_days) eq_refl eq_refl)
    as [st [st' [H [H' [E0 [E1 [_ [E2 _]]]]]]]].
  exists st, st'. repeat split; assumption.
Defined.

Lemma overview_metrics_witness :
  (exists (ov : Overview) (m : Q),
      energy_overview (frame_of two_days) (Some [1; 1; 1; 1; 1; 1]%Q)
                      (DateTuple [0; 0]) SoComercial TodosOsDias
      = Ok (Some ov)
      /\ (total_energy ov == 8)%Q
      /\ (total_cost ov == total_energy ov * TARIFA_KWH)%Q
      /\ media_diaria ov = Some m)
  /\ energy_overview (frame_of two_days) None
                     (DateTuple [0; 0]) SoComercial TodosOsDias
     = Raise (KeyError "active_power_real").
Proof.
  split.
  - destruct (overview_metrics two_days (Some [1; 1; 1; 1; 1; 1]%Q)
                (DateTuple [0; 0]) SoComercial TodosOsDias 0 0 eq_refl)
      as [_ [_ Hov]].
    destruct Hov as [ov [m [E [Ht [Hc [Hm _]]]]]];
      [discriminate | discriminate |].
    exists ov, m. split; [exact E|]. split; [exact Ht|].
    split; [exact Hc | exact Hm].
  - destruct (overview_metrics two_days None
                (DateTuple [0; 0]) SoComercial TodosOsDias 0 0 eq_refl)
      as [_ [Hnone _]].
    apply Hnone; [discriminate | reflexivity].
Defined.

Lemma two_days_all_flags_binary : all_flags_binary two_days.
Proof.
  unfold all_flags_binary, two_days.
  repeat (apply Forall_cons;
          [split; ((left; reflexivity) || (right; reflexivity))|]).
  apply Forall_nil.
Defined.

Lemma default_view_is_whole_dataset_witness :
  df_base_filt (frame_of two_days) 0 1
               (business_vals Todos) (weekend_vals TodosOsDias)
  = Ok (frame_of two_days)
  /\ exists (ov : Overview) (st : ScenarioStats),
      energy_overview (frame_of two_days) (Some [1; 1; 1; 1; 1; 1]%Q)
                      (DateTuple [0; 1])
                      Todos TodosOsDias = Ok (Some ov)
      /\ fst (compute_scenarios 0%nat [frame_of two_days]) = Ok st
      /\ (total_energy ov == total_base_kWh st)%Q.
Proof.
  apply (default_view_is_whole_dataset [frame_of two_days] 0%nat two_days
                                       [1; 1; 1; 1; 1; 1]%Q 0 1).
  - reflexivity.
  - reflexivity.
  - exact two_days_all_flags_binary.
  - reflexivity.
Defined.

Lemma business_filter_splits_view_witness :
  exists (all com off : DataFrame),
    df_base_filt (frame_of two_days) 0 1
                 (business_vals Todos) (weekend_vals TodosOsDias) = Ok all
    /\ df_base_filt (frame_of two_days) 0 1
                    (business_vals SoComercial) (weekend_vals TodosOsDias)
       = Ok com
    /\ df_base_filt (frame_of two_days) 0 1
                    (business_vals SoForaDoComercial) (weekend_vals TodosOsDias)
       = Ok off
    /\ nrows all = (nrows com + nrows off)%nat.
Proof.
  destruct (business_filter_splits_view two_days 0 1 TodosOsDias)
    as [all [com [off [ea [ec [eo [H1 [H2 [H3 [Hn _]]]]]]]]]].
  exists all, com, off. repeat split; assumption.
Defined.

Lemma missing_weekend_faults_in_filter_witness :
  exists df : DataFrame,
    load_data (csv_of two_days true false) = Ok df
    /\ (exists st, fst (compute_scenarios 0%nat [df]) = Ok st)
    /\ energy_overview df None (DateTuple [0; 1]) Todos TodosOsDias
       = Raise (KeyError "is_weekend").
Proof.
  destruct (missing_weekend_faults_in_filter two_days)
    as [df [Hload [_ [Hrun Hpage]]]].
  exists df. split; [exact Hload|]. split.
  - apply Hrun. reflexivity.
  - apply (Hpage _ _ _ _ 0 1). reflexivity.
Defined.
